(** * croncycle: the scheduling loop of [src/croncycle/__main__.py]

    The program is one function, [main]: it builds a [croniter] schedule
    iterator and then loops forever: ask the iterator for the next run, skip
    candidates that are already in the past, sleep until the run is due, run
    the command with [subprocess.run], and log how it went.

    The embedding is shallow.  [main] is written in a small monad that
    threads the mutable state of the process (the iterator's cursor, the
    number of clock readings, sleeps and command runs so far, and the trace
    of observable effects) and propagates Python exceptions.  Everything the
    program asks of the outside world (the wall clock, whether a sleep is
    interrupted, how the command ends, whether the operator's interrupt
    arrives between the sleep and the launch) is answered by an environment
    [Env] of oracles.  The [while True] loop takes fuel: running out of fuel
    means the loop is still going after that many iterations.

    The operator's interrupt is delivered at three places: inside
    [time.sleep], inside [subprocess.run], and, outside both [try]
    statements, between the return of the sleep and the launch of the
    command.  An interrupt that arrives on lines 59-69 has the effect of
    the third (it leaves [main] as [KeyboardInterrupt]) and is not
    delivered separately.

    Two libraries the program calls are not part of the repository:
    - [croniter] (cron parsing and next-match computation) is a parameter of
      the development: [cron_valid] and [cron_next].  [cron_next] is a
      total function: the development follows the runs in which
      [get_next] returns a date, and says nothing of an expression that is
      accepted but matches no date, for which [get_next] raises;
    - [typer] supplies [typer.Exit], which is [click.exceptions.Exit], a
      subclass of [RuntimeError] and hence of [Exception]; and [typer.run],
      which turns an escaping [Exit(code)] into [sys.exit(code)]. *)

From Stdlib Require Import ZArith List String Bool Lia.
Import ListNotations.
Open Scope Z_scope.

(** ** Python exceptions *)

(** The exceptions that can occur in [main].  Timestamps and durations are
    integers counting microseconds (the resolution of [datetime]). *)
Inductive exn : Type :=
| KeyboardInterrupt                  (* derives from BaseException only *)
| Exit (exit_code : Z)               (* typer.Exit: a RuntimeError *)
| OSError (what : string)            (* FileNotFoundError, PermissionError, ... *)
| ValueError (what : string)         (* time.sleep with a negative length *)
| CroniterBadCronError.              (* croniter: expression not parseable *)

(** [isinstance(e, KeyboardInterrupt)] *)
Definition is_KeyboardInterrupt (e : exn) : bool :=
  match e with KeyboardInterrupt => true | _ => false end.

(** [isinstance(e, Exception)]: every class above except
    [KeyboardInterrupt] derives from [Exception]. *)
Definition is_Exception (e : exn) : bool :=
  match e with KeyboardInterrupt => false | _ => true end.

(** ** Observable effects *)

Inductive level : Type := DEBUG | INFO | WARNING | ERROR.

(** One constructor per logging call site of [main]. *)
Inductive log_msg : Type :=
| RunningJobWithCron (cron : string)          (* line 53 *)
| CommandLine (command : list string)         (* line 54 *)
| NextRunInPast (next_run : Z)                (* line 62 *)
| NextRunAt (next_run : Z) (delta : Z)        (* line 65 *)
| Exiting                                     (* lines 74, 96 *)
| RunningJob                                  (* line 77 *)
| RunningCommand (command : list string)      (* line 78 *)
| CommandExited (returncode : Z)              (* lines 89, 94 *)
| ErrorRunningCommand (e : exn).              (* line 99 *)

(** What a standard stream of the child is connected to. *)
Inductive stdio : Type :=
| sys_stdin | sys_stdout | sys_stderr    (* the scheduler's own streams *)
| DEVNULL.                               (* subprocess.DEVNULL *)

Inductive event : Type :=
| LoggerErrorsOnly                       (* logger.remove(); logger.add(sys.stderr, level="ERROR") *)
| InstallRichuru                         (* install_richuru() *)
| Log (lvl : level) (m : log_msg)
| Sleep (usecs : Z)                      (* time.sleep entered *)
| Run (cmd : list string) (child_in child_out child_err : stdio).
                                         (* subprocess.run entered *)

(** ** The outside world *)

(** How a sleep ends: it elapses, or the operator interrupts it. *)
Inductive sleep_result : Type := SleepElapsed | SleepInterrupted.

(** How one execution attempt ends: the command completes with a return
    code, it cannot be started, or the operator interrupts it. *)
Inductive run_result : Type :=
| Completed (returncode : Z)
| SpawnError (what : string)
| RunInterrupted.

(** The [k]-th reading of the clock, the fate of the [k]-th sleep and of the
    [k]-th command run (all counted from 0), and whether the operator's
    interrupt arrives once the [k]-th sleep has returned and before the
    command is launched, that is outside both [try] statements. *)
Record Env : Type := {
  clock : nat -> Z;
  sleep_oracle : nat -> sleep_result;
  run_oracle : nat -> run_result;
  sigint_before_launch : nat -> bool
}.

(** ** Process state *)

Record State : Type := {
  clock_reads : nat;        (* calls of datetime.now() so far *)
  n_sleeps : nat;           (* sleeps entered so far *)
  n_runs : nat;             (* commands launched so far *)
  n_queries : nat;          (* calls of iter.get_next so far *)
  iter_cur : Z;             (* the croniter object's cursor *)
  trace : list event        (* effects so far, oldest first *)
}.

Definition initial_state : State :=
  {| clock_reads := 0; n_sleeps := 0; n_runs := 0; n_queries := 0;
     iter_cur := 0; trace := [] |}.

Definition emit (ev : event) (s : State) : State :=
  {| clock_reads := clock_reads s; n_sleeps := n_sleeps s; n_runs := n_runs s;
     n_queries := n_queries s; iter_cur := iter_cur s;
     trace := trace s ++ [ev] |}.

Definition tick_clock (s : State) : State :=
  {| clock_reads := S (clock_reads s); n_sleeps := n_sleeps s;
     n_runs := n_runs s; n_queries := n_queries s; iter_cur := iter_cur s;
     trace := trace s |}.

Definition count_sleep (s : State) : State :=
  {| clock_reads := clock_reads s; n_sleeps := S (n_sleeps s);
     n_runs := n_runs s; n_queries := n_queries s; iter_cur := iter_cur s;
     trace := trace s |}.

Definition count_run (s : State) : State :=
  {| clock_reads := clock_reads s; n_sleeps := n_sleeps s;
     n_runs := S (n_runs s); n_queries := n_queries s; iter_cur := iter_cur s;
     trace := trace s |}.

Definition set_cursor (c : Z) (s : State) : State :=
  {| clock_reads := clock_reads s; n_sleeps := n_sleeps s; n_runs := n_runs s;
     n_queries := n_queries s; iter_cur := c; trace := trace s |}.

Definition count_query (s : State) : State :=
  {| clock_reads := clock_reads s; n_sleeps := n_sleeps s; n_runs := n_runs s;
     n_queries := S (n_queries s); iter_cur := iter_cur s; trace := trace s |}.

(** ** The monad: state, exceptions, fuel *)

Inductive outcome (A : Type) : Type :=
| Normal (a : A)          (* the statement completed *)
| Raised (e : exn)        (* an exception is propagating *)
| OutOfFuel.              (* the loop is still running *)
Arguments Normal {A} a.
Arguments Raised {A} e.
Arguments OutOfFuel {A}.

Definition M (A : Type) : Type := State -> outcome A * State.

Definition ret {A} (a : A) : M A := fun s => (Normal a, s).

Definition bind {A B} (c : M A) (k : A -> M B) : M B :=
  fun s =>
    match c s with
    | (Normal a, s') => k a s'
    | (Raised e, s') => (Raised e, s')
    | (OutOfFuel, s') => (OutOfFuel, s')
    end.

Definition raise {A} (e : exn) : M A := fun s => (Raised e, s).

Declare Scope py_scope.
Delimit Scope py_scope with py.
Notation "x <- c ;; k" := (bind c (fun x => k))
  (at level 61, c at next level, right associativity) : py_scope.
Notation "c ;; k" := (bind c (fun _ => k))
  (at level 61, right associativity) : py_scope.
Open Scope py_scope.

(** An [except] clause: which exceptions it catches, and its body. *)
Definition clause (A : Type) : Type := ((exn -> bool) * (exn -> M A))%type.

(** The first clause that matches handles the exception; with none the
    exception keeps propagating. *)
Fixpoint dispatch {A} (clauses : list (clause A)) (e : exn) : M A :=
  match clauses with
  | [] => raise e
  | (catches, handler) :: rest =>
      if catches e then handler e else dispatch rest e
  end.

(** [try: body  except ...: ...].  An exception raised by a handler is not
    offered to the sibling clauses. *)
Definition try_except {A} (body : M A) (clauses : list (clause A)) : M A :=
  fun s =>
    match body s with
    | (Raised e, s') => dispatch clauses e s'
    | r => r
    end.

(** [while True: body].  [continue] and falling off the end of the body are
    both [Normal tt]; there is no [break], so the loop is only left by an
    exception. *)
Fixpoint while_true (fuel : nat) (body : M unit) : M unit :=
  match fuel with
  | O => fun s => (OutOfFuel, s)
  | S fuel' => body ;; while_true fuel' body
  end.

(** ** Command-line arguments of [main] *)

Record Args : Type := {
  command : list string;
  cron : string;
  quiet : bool;
  exit_on_error : bool;
  ignored_codes : list Z;
  no_richuru : bool;
  stdin : bool;
  stderr_to_stdout : bool;
  no_output : bool
}.

(** [x in xs] on a list of integers *)
Definition py_in (x : Z) (xs : list Z) : bool := existsb (Z.eqb x) xs.

(** The exit status of the process once [main] is over: the code of an
    escaping [typer.Exit]; 130 for an escaping [KeyboardInterrupt] ([typer]
    prints "Aborted." and exits with 130; releases that leave it to click's
    [Abort] exit with 1, non-zero either way); and 1 for any other escaping
    exception, whose traceback the interpreter prints.  [None] while the
    loop is running. *)
Definition exit_status (o : outcome unit) : option Z :=
  match o with
  | Normal _ => Some 0
  | Raised (Exit code) => Some code
  | Raised KeyboardInterrupt => Some 130
  | Raised _ => Some 1
  | OutOfFuel => None
  end.

(** ** Sample jobs and worlds, used to run the program *)

(** A calculator for a schedule that fires at every multiple of [period]:
    the next multiple strictly after the cursor. *)
Definition every (period : Z) (_ : string) (cur : Z) : Z :=
  (cur / period + 1) * period.

Definition second : Z := 1000000.
Definition minute : Z := 60 * second.

(** A parser that accepts one five-field and one six-field expression. *)
Definition only_stars (expr : string) : bool :=
  String.eqb expr "* * * * *" || String.eqb expr "* * * * * *".

Definition job (expr : string) (eoe : bool) (ignored : list Z)
    (i r o : bool) : Args :=
  {| command := ["backup"%string]; cron := expr; quiet := false;
     exit_on_error := eoe; ignored_codes := ignored; no_richuru := true;
     stdin := i; stderr_to_stdout := r; no_output := o |}.

(** Jobs: strict ([--exit-on-error], nothing ignored), lenient (no
    [--exit-on-error]), and a strict one with an expression of three fields. *)
Definition strict_job : Args := job "* * * * *" true [] false false false.
Definition lenient_job : Args := job "* * * * *" false [] false false false.
Definition bad_job : Args := job "* * *" true [] false false false.

(** A strict job that ignores return code 2. *)
Definition forgiving_job : Args := job "* * * * *" true [2] false false false.

(** Jobs that merge standard error into standard output, the second with
    [--no-output] as well. *)
Definition merging_job : Args := job "* * * * *" false [] false true false.
Definition muted_merging_job : Args := job "* * * * *" false [] false true true.

(** A job on a six-field schedule. *)
Definition tick_job : Args := job "* * * * * *" false [] false false false.

(** A world whose clock stands still at 0, whose sleeps all elapse and whose
    command always ends the same way. *)
Definition still_world (r : run_result) : Env :=
  {| clock := fun _ => 0; sleep_oracle := fun _ => SleepElapsed;
     run_oracle := fun _ => r; sigint_before_launch := fun _ => false |}.

(** The command cannot be started. *)
Definition missing_binary : Env :=
  still_world (SpawnError "No such file or directory").

(** The same world, but the operator interrupts the second sleep. *)
Definition interrupt_second_sleep : Env :=
  {| clock := fun _ => 0;
     sleep_oracle := fun k => if Nat.eqb k 1 then SleepInterrupted
                              else SleepElapsed;
     run_oracle := fun _ => Completed 0;
     sigint_before_launch := fun _ => false |}.

(** The same world, but the operator interrupts the second command. *)
Definition interrupt_second_run : Env :=
  {| clock := fun _ => 0; sleep_oracle := fun _ => SleepElapsed;
     run_oracle := fun k => if Nat.eqb k 1 then RunInterrupted
                            else Completed 0;
     sigint_before_launch := fun _ => false |}.

(** A world in which the clock, read at the start as 0, has jumped to 12 by
    the first iteration and stays there. *)
Definition jumped_world : Env :=
  {| clock := fun k => match k with O => 0 | S _ => 12 end;
     sleep_oracle := fun _ => SleepElapsed;
     run_oracle := fun _ => Completed 0;
     sigint_before_launch := fun _ => false |}.



(** A world in which the process is held up between lines 61 and 69 of the
    first iteration: the first three readings of the clock are 0, the later
    ones two minutes. *)
Definition late_world : Env :=
  {| clock := fun k => if Nat.ltb k 3 then 0 else 2 * minute;
     sleep_oracle := fun _ => SleepElapsed;
     run_oracle := fun _ => Completed 0;
     sigint_before_launch := fun _ => false |}.

(** A world whose clock shows one minute at every reading. *)
Definition on_the_minute : Env :=
  {| clock := fun _ => minute; sleep_oracle := fun _ => SleepElapsed;
     run_oracle := fun _ => Completed 0;
     sigint_before_launch := fun _ => false |}.

(** A world in which the first sleep elapses and the operator's interrupt
    arrives just after it, before the command is launched. *)
Definition interrupt_before_launch : Env :=
  {| clock := fun _ => 0; sleep_oracle := fun _ => SleepElapsed;
     run_oracle := fun _ => Completed 0;
     sigint_before_launch := fun k => Nat.eqb k 0 |}.

(** The same arguments with another list after [--ignored-codes]. *)
Definition with_ignored_codes (codes : list Z) (a : Args) : Args :=
  {| command := command a; cron := cron a; quiet := quiet a;
     exit_on_error := exit_on_error a; ignored_codes := codes;
     no_richuru := no_richuru a; stdin := stdin a;
     stderr_to_stdout := stderr_to_stdout a; no_output := no_output a |}.


(** Standard error goes where standard output goes. *)
Definition merged_streams (ev : event) : Prop :=
  match ev with
  | Run _ _ o e => e = o
  | _ => True
  end.

Section Croncycle.

(** *** The croniter library, as a parameter

    [cron_valid expr]: the constructor [croniter(expr, ...)] accepts the
    expression (it raises otherwise).
    [cron_next expr cur]: the timestamp [get_next] computes from cursor
    [cur]; [get_next] also moves the cursor there. *)
Variable cron_valid : string -> bool.
Variable cron_next : string -> Z -> Z.

Variable args : Args.
Variable env : Env.

(** *** Primitives *)

(** [datetime.now()] *)
Definition datetime_now : M Z :=
  fun s => (Normal (clock env (clock_reads s)), tick_clock s).

(** [logger.<lvl>(m)] *)
Definition logger (lvl : level) (m : log_msg) : M unit :=
  fun s => (Normal tt, emit (Log lvl m) s).

Definition effect (ev : event) : M unit :=
  fun s => (Normal tt, emit ev s).

(** [croniter(expr, start_time=start)] *)
Definition croniter (expr : string) (start : Z) : M unit :=
  fun s =>
    if cron_valid expr then (Normal tt, set_cursor start s)
    else (Raised CroniterBadCronError, s).

(** [iter.get_next(datetime)], when it returns a date *)
Definition iter_get_next : M Z :=
  fun s =>
    let t := cron_next (cron args) (iter_cur s) in
    (Normal t, count_query (set_cursor t s)).

(** [time.sleep(secs)], the length in microseconds.  A negative length
    raises [ValueError] without sleeping. *)
Definition time_sleep (usecs : Z) : M unit :=
  fun s =>
    if usecs <? 0 then
      (Raised (ValueError "sleep length must be non-negative"), s)
    else
      let s' := count_sleep (emit (Sleep usecs) s) in
      match sleep_oracle env (n_sleeps s) with
      | SleepElapsed => (Normal tt, s')
      | SleepInterrupted => (Raised KeyboardInterrupt, s')
      end.

(** [subprocess.run(cmd, stdin=i, stdout=o, stderr=e).returncode] *)
Definition subprocess_run (cmd : list string) (i o e : stdio) : M Z :=
  fun s =>
    let s' := count_run (emit (Run cmd i o e) s) in
    match run_oracle env (n_runs s) with
    | Completed rc => (Normal rc, s')
    | SpawnError what => (Raised (OSError what), s')
    | RunInterrupted => (Raised KeyboardInterrupt, s')
    end.

(** Python raises [KeyboardInterrupt] between two bytecodes of the main
    thread, wherever the signal finds it.  Inside [time.sleep] and
    [subprocess.run] that is the business of [time_sleep] and
    [subprocess_run].  This is the point between them: the [try] statement
    of lines 71-75 has been left, that of line 80 is not yet entered
    (lines 77-78), the sleep that has just returned being the last one
    counted. *)
Definition pending_interrupt : M unit :=
  fun s =>
    if sigint_before_launch env (Nat.pred (n_sleeps s))
    then (Raised KeyboardInterrupt, s)
    else (Normal tt, s).

(** *** [main], lines 47-100 *)

(** Lines 83-85: what the child's three streams are connected to. *)
Definition child_stdin : stdio := if stdin args then sys_stdin else DEVNULL.
Definition child_stdout : stdio :=
  if negb (no_output args) then sys_stdout else DEVNULL.
Definition child_stderr : stdio :=
  if stderr_to_stdout args then sys_stdout else sys_stderr.

(** Lines 59-75, up to the point where line 77 starts.  [false]: the
    candidate was in the past ([continue] at line 63); [true]: the sleep
    elapsed and the command is due. *)
Definition wait_phase : M bool :=
  next_run <- iter_get_next ;;
  now <- datetime_now ;;
  if next_run <=? now then
    logger WARNING (NextRunInPast next_run) ;;
    ret false
  else
    now' <- datetime_now ;;
    logger INFO (NextRunAt next_run (next_run - now')) ;;
    now'' <- datetime_now ;;
    let secs := next_run - now'' in
    try_except (time_sleep secs)
      [ (is_KeyboardInterrupt,
         fun _ => logger INFO Exiting ;; raise (Exit 0)) ] ;;
    pending_interrupt ;;
    ret true.

(** Lines 77-100. *)
Definition execute_phase : M unit :=
  logger INFO RunningJob ;;
  logger DEBUG (RunningCommand (command args)) ;;
  try_except
    (returncode <-
       subprocess_run (command args) child_stdin child_stdout child_stderr ;;
     (if negb (returncode =? 0) then
        logger ERROR (CommandExited returncode) ;;
        if exit_on_error args && negb (py_in returncode (ignored_codes args))
        then raise (Exit returncode)
        else ret tt
      else ret tt) ;;
     logger INFO (CommandExited returncode))
    [ (is_KeyboardInterrupt,
       fun _ => logger INFO Exiting ;; raise (Exit 0));
      (is_Exception,
       fun e => logger ERROR (ErrorRunningCommand e)) ].

(** One iteration of the loop, lines 59-100. *)
Definition body : M unit :=
  due <- wait_phase ;;
  if due : bool then execute_phase else ret tt.

(** Lines 58-100. *)
Definition run_loop (fuel : nat) : M unit := while_true fuel body.

(** Lines 47-56. *)
Definition startup : M unit :=
  (if quiet args then effect LoggerErrorsOnly
   else if negb (no_richuru args) then effect InstallRichuru
   else ret tt) ;;
  logger INFO (RunningJobWithCron (cron args)) ;;
  logger INFO (CommandLine (command args)) ;;
  start_time <- datetime_now ;;
  croniter (cron args) start_time.

Definition main (fuel : nat) : M unit :=
  startup ;; run_loop fuel.

(** ** Notions used in the statements *)

(** The test of line 61 in the iteration that starts in state [s]. *)
Definition candidate_in_past (s : State) : bool :=
  cron_next (cron args) (iter_cur s) <=? clock env (clock_reads s).

(** The state a requery leaves behind. *)
Definition requeried (s : State) : State :=
  let t := cron_next (cron args) (iter_cur s) in
  emit (Log WARNING (NextRunInPast t))
       (tick_clock (count_query (set_cursor t s))).

(** The state in which the sleep is entered and counted. *)
Definition asleep (s : State) : State :=
  let t := cron_next (cron args) (iter_cur s) in
  let s1 := tick_clock (count_query (set_cursor t s)) in
  let s2 := emit (Log INFO (NextRunAt t (t - clock env (clock_reads s1))))
                 (tick_clock s1) in
  count_sleep (emit (Sleep (t - clock env (clock_reads s2))) (tick_clock s2)).

(** The sleep is entered when the candidate is in the future at line 61 and
    still not behind the clock at line 69. *)
Definition sleep_entered (s : State) : Prop :=
  candidate_in_past s = false /\
  0 <= cron_next (cron args) (iter_cur s) - clock env (2 + clock_reads s).

(** The state in which [subprocess.run] has been entered. *)
Definition launched (s : State) : State :=
  count_run
    (emit (Run (command args) child_stdin child_stdout child_stderr)
       (emit (Log DEBUG (RunningCommand (command args)))
          (emit (Log INFO RunningJob) s))).

(** Counters after the execute phase: one more command, nothing else. *)
Definition ran_once (s s' : State) : Prop :=
  n_runs s' = S (n_runs s) /\ n_sleeps s' = n_sleeps s /\
  n_queries s' = n_queries s /\ clock_reads s' = clock_reads s /\
  iter_cur s' = iter_cur s.

(** [N] consecutive iterations in each of which the wait elapses and the
    command ends in a way that satisfies [P]. *)
Fixpoint cycles (P : run_result -> Prop) (N : nat) (s : State) : Prop :=
  match N with
  | O => True
  | S n =>
      exists s1, wait_phase s = (Normal true, s1) /\
                 P (run_oracle env (n_runs s1)) /\
                 cycles P n (snd (body s))
  end.

(** The state in which the loop is entered when the expression parses. *)
Definition started (s : State) : State :=
  let s1 :=
    if quiet args then emit LoggerErrorsOnly s
    else if negb (no_richuru args) then emit InstallRichuru s
    else s in
  let s2 := emit (Log INFO (CommandLine (command args)))
                 (emit (Log INFO (RunningJobWithCron (cron args))) s1) in
  set_cursor (clock env (clock_reads s2)) (tick_clock s2).

(** The state [main] is in after [k] iterations from [s0]. *)
Definition state_after (k : nat) (s0 : State) : State := snd (main k s0).

(** A command that completes with a non-zero return code that line 91 lets
    pass. *)
Definition tolerated_exit (r : run_result) : Prop :=
  exists rc, r = Completed rc /\ rc <> 0 /\
             (exit_on_error args = false \/ In rc (ignored_codes args)).

(** The operator interrupts the sleep of the iteration that starts in [s]. *)
Definition interrupted_in_wait (s : State) : Prop :=
  sleep_entered s /\ sleep_oracle env (n_sleeps s) = SleepInterrupted.

(** The operator interrupts the command of the iteration that starts in
    [s]. *)
Definition interrupted_in_run (s : State) : Prop :=
  exists s1, wait_phase s = (Normal true, s1) /\
             run_oracle env (n_runs s1) = RunInterrupted.

(** [s'] has the trace of [s] followed by events that all satisfy [P]. *)
Definition extends (P : event -> Prop) (s s' : State) : Prop :=
  exists l, trace s' = trace s ++ l /\ Forall P l.

(** Every [subprocess.run] the program enters has the command of the
    command line and the three streams of lines 83-85. *)
Definition as_configured (ev : event) : Prop :=
  match ev with
  | Run cmd i o e =>
      cmd = command args /\ i = child_stdin /\ o = child_stdout /\
      e = child_stderr
  | _ => True
  end.

(** A computation that only adds such events to the trace. *)
Definition tidy {A} (c : M A) : Prop :=
  forall s, extends as_configured s (snd (c s)).

(** The child reads the scheduler's standard input when [--enable-stdin]
    is given and the null device otherwise. *)
Definition stdin_as_enabled (ev : event) : Prop :=
  match ev with
  | Run _ i _ _ => if stdin args then i = sys_stdin else i = DEVNULL
  | _ => True
  end.

(** With [--stderr-to-stdout] the child's standard error is the scheduler's
    standard output; that is where the child's standard output goes exactly
    when [--no-output] is not given. *)
Definition stderr_on_sys_stdout (ev : event) : Prop :=
  match ev with
  | Run _ _ o e => e = sys_stdout /\ (e = o <-> no_output args = false)
  | _ => True
  end.



(** *** One iteration, case by case *)

(** The candidate is in the future at line 61 but behind the clock at line
    69: [time.sleep] is called with a negative length. *)
Definition overslept (s : State) : Prop :=
  candidate_in_past s = false /\
  cron_next (cron args) (iter_cur s) - clock env (2 + clock_reads s) < 0.

(** The state in which [time.sleep] refuses the negative length. *)
Definition woke_late (s : State) : State :=
  let t := cron_next (cron args) (iter_cur s) in
  let s1 := tick_clock (count_query (set_cursor t s)) in
  tick_clock
    (emit (Log INFO (NextRunAt t (t - clock env (clock_reads s1))))
       (tick_clock s1)).

(** The sleep is entered and elapses, and no interrupt arrives before the
    command is launched. *)
Definition due (s : State) : Prop :=
  sleep_entered s /\ sleep_oracle env (n_sleeps s) = SleepElapsed /\
  sigint_before_launch env (n_sleeps s) = false.

(** The nine courses an iteration that starts in [s] can take, each with
    its outcome and the state it leaves. *)
Inductive iteration (s : State) : outcome unit -> State -> Prop :=
| Requery :
    candidate_in_past s = true ->
    iteration s (Normal tt) (requeried s)
| WokeLate :
    overslept s ->
    iteration s (Raised (ValueError "sleep length must be non-negative"))
      (woke_late s)
| SleepInterrupt :
    sleep_entered s ->
    sleep_oracle env (n_sleeps s) = SleepInterrupted ->
    iteration s (Raised (Exit 0)) (emit (Log INFO Exiting) (asleep s))
| LaunchInterrupt :
    sleep_entered s ->
    sleep_oracle env (n_sleeps s) = SleepElapsed ->
    sigint_before_launch env (n_sleeps s) = true ->
    iteration s (Raised KeyboardInterrupt) (asleep s)
| ExitedZero :
    due s ->
    run_oracle env (n_runs s) = Completed 0 ->
    iteration s (Normal tt)
      (emit (Log INFO (CommandExited 0)) (launched (asleep s)))
| ExitedTolerated (rc : Z) :
    due s ->
    run_oracle env (n_runs s) = Completed rc ->
    rc <> 0 ->
    exit_on_error args = false \/ In rc (ignored_codes args) ->
    iteration s (Normal tt)
      (emit (Log INFO (CommandExited rc))
         (emit (Log ERROR (CommandExited rc)) (launched (asleep s))))
| ExitedFatal (rc : Z) :
    due s ->
    run_oracle env (n_runs s) = Completed rc ->
    rc <> 0 ->
    exit_on_error args = true ->
    ~ In rc (ignored_codes args) ->
    iteration s (Normal tt)
      (emit (Log ERROR (ErrorRunningCommand (Exit rc)))
         (emit (Log ERROR (CommandExited rc)) (launched (asleep s))))
| SpawnFailed (what : string) :
    due s ->
    run_oracle env (n_runs s) = SpawnError what ->
    iteration s (Normal tt)
      (emit (Log ERROR (ErrorRunningCommand (OSError what)))
         (launched (asleep s)))
| RunInterrupt :
    due s ->
    run_oracle env (n_runs s) = RunInterrupted ->
    iteration s (Raised (Exit 0))
      (emit (Log INFO Exiting) (launched (asleep s))).

(** *** What a run leaves in the state and in the trace *)

(** The events of lines 47-54: the logger's configuration, then the two
    lines that announce the job. *)
Definition setup_events : list event :=
  if quiet args then [LoggerErrorsOnly]
  else if negb (no_richuru args) then [InstallRichuru]
  else [].

Definition banner : list event :=
  setup_events ++
  [ Log INFO (RunningJobWithCron (cron args));
    Log INFO (CommandLine (command args)) ].

(** What [main] may add to the trace: which events, and for the log lines
    at which level. *)
Definition may_emit (ev : event) : Prop :=
  match ev with
  | LoggerErrorsOnly => quiet args = true
  | InstallRichuru => quiet args = false /\ no_richuru args = false
  | Log ERROR m =>
      match m with
      | CommandExited rc => rc <> 0
      | ErrorRunningCommand e => True
      | _ => False
      end
  | Log WARNING m => exists t, m = NextRunInPast t
  | Log DEBUG m => m = RunningCommand (command args)
  | Log INFO m =>
      match m with
      | NextRunInPast _ | RunningCommand _ | ErrorRunningCommand _ => False
      | _ => True
      end
  | Sleep usecs => 0 <= usecs
  | Run _ _ _ _ => True
  end.

(** The events that are not a configuration of the logger. *)
Definition after_setup (ev : event) : Prop :=
  match ev with
  | LoggerErrorsOnly | InstallRichuru => False
  | _ => True
  end.

(** The messages logged at level ERROR: a non-zero exit status, or an
    exception caught at line 98. *)
Definition errors_are_failures (ev : event) : Prop :=
  match ev with
  | Log ERROR m =>
      (exists rc, m = CommandExited rc /\ rc <> 0) \/
      (exists e, m = ErrorRunningCommand e)
  | _ => True
  end.

(** The command and the streams of a launch that the claims on standard
    input and standard error leave open: the command is the one of the
    command line; standard output is discarded with [--no-output] and is
    the scheduler's otherwise; standard error is the scheduler's unless
    [--stderr-to-stdout] is given. *)
Definition launch_as_given (ev : event) : Prop :=
  match ev with
  | Run cmd _ o e =>
      cmd = command args /\
      o = (if no_output args then DEVNULL else sys_stdout) /\
      (stderr_to_stdout args = false -> e = sys_stderr)
  | _ => True
  end.

(** ** How one iteration evaluates *)

Ltac unfold_py :=
  cbv beta iota zeta delta
    [body wait_phase execute_phase run_loop startup main croniter
     bind ret raise logger effect try_except dispatch
     iter_get_next datetime_now time_sleep subprocess_run pending_interrupt
     is_KeyboardInterrupt is_Exception];
  cbn [emit tick_clock count_sleep count_run count_query set_cursor
       clock_reads n_sleeps n_runs n_queries iter_cur trace fst snd].

(** The loop unrolls one iteration at a time. *)
Lemma run_loop_S (n : nat) (s : State) :
  run_loop (S n) s =
  match body s with
  | (Normal _, s') => run_loop n s'
  | (Raised e, s') => (Raised e, s')
  | (OutOfFuel, s') => (OutOfFuel, s')
  end.
Proof. reflexivity. Qed.

Lemma run_loop_continue (n : nat) (s s' : State) :
  body s = (Normal tt, s') -> run_loop (S n) s = run_loop n s'.
Proof. intros Hb. rewrite run_loop_S, Hb. reflexivity. Qed.

Lemma run_loop_raise (n : nat) (s s' : State) (e : exn) :
  body s = (Raised e, s') -> run_loop (S n) s = (Raised e, s').
Proof. intros Hb. rewrite run_loop_S, Hb. reflexivity. Qed.

(** When the wait elapses the iteration goes on with the command. *)
Lemma body_due (s s1 : State) :
  wait_phase s = (Normal true, s1) -> body s = execute_phase s1.
Proof.
  intros Hw. unfold body, bind. rewrite Hw. reflexivity.
Qed.

(** A requery: the candidate is in the past, nothing else happens. *)
Lemma body_requery (s s1 : State) :
  wait_phase s = (Normal false, s1) -> body s = (Normal tt, s1).
Proof.
  intros Hw. unfold body, bind. rewrite Hw. reflexivity.
Qed.

Lemma wait_phase_past (s : State) :
  candidate_in_past s = true ->
  wait_phase s = (Normal false, requeried s).
Proof.
  unfold candidate_in_past. intros Hp. unfold_py. rewrite Hp. reflexivity.
Qed.

(** What the wait phase has done when it reports that the command is due. *)
Lemma wait_phase_due (s s1 : State) :
  wait_phase s = (Normal true, s1) ->
  n_queries s1 = S (n_queries s) /\ n_sleeps s1 = S (n_sleeps s) /\
  n_runs s1 = n_runs s.
Proof.
  unfold_py.
  destruct (_ <=? _); [discriminate|].
  destruct (_ <? _); [discriminate|].
  destruct (sleep_oracle env _); [|discriminate].
  unfold_py. destruct (sigint_before_launch env _); [discriminate|].
  intros H. injection H as <-. cbn. auto.
Qed.

(** The execute phase ends the loop only when the operator interrupts the
    command: whatever the return code, and also when the command cannot
    be started, the iteration ends normally.  An [Exit] raised at line 92
    is inside the [try] of line 80 and is caught at line 98. *)
Lemma execute_phase_not_interrupted (s : State) :
  run_oracle env (n_runs s) <> RunInterrupted ->
  exists s', execute_phase s = (Normal tt, s') /\ ran_once s s'.
Proof.
  intros Hr. unfold_py.
  destruct (run_oracle env (n_runs s)) as [rc|what|]; [| |congruence].
  - destruct (negb (rc =? 0)).
    + destruct (exit_on_error args && negb (py_in rc (ignored_codes args)));
        eexists; (split; [reflexivity|]); repeat split.
    + eexists; (split; [reflexivity|]); repeat split.
  - eexists; (split; [reflexivity|]); repeat split.
Qed.

Lemma execute_phase_interrupted (s : State) :
  run_oracle env (n_runs s) = RunInterrupted ->
  exists s', execute_phase s = (Raised (Exit 0), s') /\ ran_once s s'.
Proof.
  intros Hr. unfold_py. rewrite Hr.
  eexists; (split; [reflexivity|]); repeat split.
Qed.

(** Iterations in which the command ends in a way that satisfies [P] never
    end the loop, provided [P] excludes the operator's interrupt. *)
Lemma run_loop_cycles (P : run_result -> Prop) :
  ~ P RunInterrupted ->
  forall (N : nat) (s : State),
    cycles P N s ->
    fst (run_loop N s) = OutOfFuel /\
    n_runs (snd (run_loop N s)) = (n_runs s + N)%nat /\
    n_queries (snd (run_loop N s)) = (n_queries s + N)%nat.
Proof.
  intros HP. induction N as [|n IH]; intros s Hc.
  - cbn. repeat split; lia.
  - destruct Hc as (s1 & Hw & Hr & Hrest).
    assert (Hne : run_oracle env (n_runs s1) <> RunInterrupted)
      by (intros E; rewrite E in Hr; exact (HP Hr)).
    destruct (execute_phase_not_interrupted s1 Hne) as (s2 & He & Hc2).
    pose proof (body_due s s1 Hw) as Hb. rewrite He in Hb.
    rewrite Hb in Hrest. cbn [snd] in Hrest.
    rewrite (run_loop_continue n s s2 Hb).
    destruct (IH s2 Hrest) as (Hf & Hruns & Hq).
    destruct (wait_phase_due s s1 Hw) as (Hq1 & _ & Hr1).
    destruct Hc2 as (Hr2 & _ & Hq2 & _).
    repeat split; [exact Hf | lia | lia].
Qed.

(** An invariant that every iteration keeps, and under which every
    iteration ends normally, keeps the loop running for ever. *)
Lemma run_loop_invariant (I : State -> Prop) :
  (forall s, I s -> exists s', body s = (Normal tt, s') /\ I s') ->
  forall (N : nat) (s : State),
    I s -> fst (run_loop N s) = OutOfFuel /\ I (snd (run_loop N s)).
Proof.
  intros Hstep. induction N as [|n IH]; intros s Hs.
  - cbn. auto.
  - destruct (Hstep s Hs) as (s' & Hb & Hs').
    rewrite (run_loop_continue n s s' Hb). apply IH, Hs'.
Qed.

Lemma main_started (fuel : nat) (s : State) :
  cron_valid (cron args) = true ->
  main fuel s = run_loop fuel (started s).
Proof.
  intros Hv. unfold main, startup, started, bind.
  unfold croniter. rewrite Hv.
  destruct (quiet args); [reflexivity|].
  destruct (negb (no_richuru args)); reflexivity.
Qed.

(** *** The wait phase, case by case *)

Lemma wait_phase_elapsed (s : State) :
  sleep_entered s ->
  sleep_oracle env (n_sleeps s) = SleepElapsed ->
  sigint_before_launch env (n_sleeps s) = false ->
  wait_phase s = (Normal true, asleep s).
Proof.
  unfold sleep_entered, candidate_in_past. intros [Hf Hs] Ho Hi.
  apply Z.ltb_ge in Hs. cbn [Nat.add] in Hs.
  unfold_py. rewrite Hf. unfold_py. rewrite Hs, Ho.
  unfold_py. cbn [Nat.pred]. rewrite Hi. reflexivity.
Qed.

Lemma wait_phase_interrupted (s : State) :
  sleep_entered s ->
  sleep_oracle env (n_sleeps s) = SleepInterrupted ->
  wait_phase s = (Raised (Exit 0), emit (Log INFO Exiting) (asleep s)).
Proof.
  unfold sleep_entered, candidate_in_past. intros [Hf Hs] Ho.
  apply Z.ltb_ge in Hs. cbn [Nat.add] in Hs.
  unfold_py. rewrite Hf. unfold_py. rewrite Hs, Ho. reflexivity.
Qed.

(** *** The execute phase, case by case *)

Lemma py_in_In (x : Z) (xs : list Z) : py_in x xs = true <-> In x xs.
Proof.
  unfold py_in. rewrite existsb_exists. split.
  - intros (y & Hy & E). apply Z.eqb_eq in E. now subst.
  - intros Hx. exists x. split; [assumption | apply Z.eqb_refl].
Qed.

(** Return code 0: lines 88-93 are skipped, line 94 logs the status. *)
Lemma execute_phase_zero (s : State) :
  run_oracle env (n_runs s) = Completed 0 ->
  execute_phase s = (Normal tt, emit (Log INFO (CommandExited 0)) (launched s)).
Proof. intros Hr. unfold_py. rewrite Hr. reflexivity. Qed.

(** A non-zero return code that line 91 lets pass: logged at lines 89 and
    94. *)
Lemma execute_phase_tolerated (s : State) (rc : Z) :
  run_oracle env (n_runs s) = Completed rc ->
  rc <> 0 ->
  exit_on_error args = false \/ In rc (ignored_codes args) ->
  execute_phase s =
  (Normal tt,
   emit (Log INFO (CommandExited rc))
     (emit (Log ERROR (CommandExited rc)) (launched s))).
Proof.
  intros Hr Hnz Htol. apply Z.eqb_neq in Hnz.
  assert (Hc : exit_on_error args && negb (py_in rc (ignored_codes args))
               = false).
  { destruct Htol as [-> | Hin]; [reflexivity|].
    apply py_in_In in Hin. rewrite Hin. apply andb_false_r. }
  unfold_py. rewrite Hr, Hnz. cbn [negb]. rewrite Hc. reflexivity.
Qed.

(** A non-zero return code that line 91 treats as fatal: line 92 raises
    [typer.Exit(rc)] inside the [try] of line 80.  [KeyboardInterrupt] does
    not match it, [Exception] does: line 99 logs it and line 100 continues
    the loop. *)
Lemma execute_phase_fatal (s : State) (rc : Z) :
  run_oracle env (n_runs s) = Completed rc ->
  rc <> 0 ->
  exit_on_error args = true ->
  ~ In rc (ignored_codes args) ->
  execute_phase s =
  (Normal tt,
   emit (Log ERROR (ErrorRunningCommand (Exit rc)))
     (emit (Log ERROR (CommandExited rc)) (launched s))).
Proof.
  intros Hr Hnz Heoe Hni. apply Z.eqb_neq in Hnz.
  assert (Hin : py_in rc (ignored_codes args) = false).
  { destruct (py_in rc (ignored_codes args)) eqn:E; [|reflexivity].
    apply py_in_In in E. contradiction. }
  unfold_py. rewrite Hr, Hnz, Heoe, Hin. reflexivity.
Qed.

(** The command cannot be started: line 99 logs, line 100 continues. *)
Lemma execute_phase_spawn_error (s : State) (what : string) :
  run_oracle env (n_runs s) = SpawnError what ->
  execute_phase s =
  (Normal tt,
   emit (Log ERROR (ErrorRunningCommand (OSError what))) (launched s)).
Proof. intros Hr. unfold_py. rewrite Hr. reflexivity. Qed.

(** The operator interrupts the command: lines 96-97. *)
Lemma execute_phase_keyboard_interrupt (s : State) :
  run_oracle env (n_runs s) = RunInterrupted ->
  execute_phase s = (Raised (Exit 0), emit (Log INFO Exiting) (launched s)).
Proof. intros Hr. unfold_py. rewrite Hr. reflexivity. Qed.

(** *** Fuel *)

(** Fuel is only spent by the loop: one iteration always ends, normally or
    with an exception. *)
Lemma body_ends (s : State) : fst (body s) <> OutOfFuel.
Proof.
  unfold_py.
  destruct (_ <=? _); [cbn; discriminate|].
  destruct (_ <? _); [cbn; discriminate|].
  destruct (sleep_oracle env _); [|cbn; discriminate].
  unfold_py. destruct (sigint_before_launch env _); [cbn; discriminate|].
  destruct (run_oracle env _) as [rc|what|]; [|cbn; discriminate..].
  destruct (negb (rc =? 0)); [|cbn; discriminate].
  destruct (exit_on_error args && _); cbn; discriminate.
Qed.

(** Running [k + m] iterations is running [k] and then, if the loop is
    still going, [m] more. *)
Lemma run_loop_add (k m : nat) (s : State) :
  run_loop (k + m) s =
  match run_loop k s with
  | (OutOfFuel, s') => run_loop m s'
  | r => r
  end.
Proof.
  revert s. induction k as [|k IH]; intros s.
  - reflexivity.
  - cbn [Nat.add]. rewrite !run_loop_S.
    pose proof (body_ends s) as Hb.
    destruct (body s) as [[[]|e|] s'];
      [apply IH | reflexivity | now cbn in Hb].
Qed.

Lemma startup_ends (s : State) :
  fst (startup s) <> OutOfFuel.
Proof.
  unfold_py.
  destruct (quiet args); [|destruct (negb (no_richuru args))];
    destruct (cron_valid (cron args)); cbn; discriminate.
Qed.

(** Once [main] has been seen looping for [k] iterations, its further
    course is that of the loop. *)
Lemma main_add (k m : nat) (s0 s : State) :
  main k s0 = (OutOfFuel, s) -> main (k + m) s0 = run_loop m s.
Proof.
  unfold main, bind. pose proof (startup_ends s0) as Hs.
  destruct (startup s0) as [[[]|e|] sa].
  - intros Hk. rewrite run_loop_add, Hk. reflexivity.
  - discriminate.
  - now cbn in Hs.
Qed.

(** ** The outcome policy of the loop *)

(** C4: an expression that croniter does not parse ends the program at
    startup with the status of an uncaught exception, 1: whatever the fuel,
    the loop is not entered, the calculator is not queried, nothing is
    slept and no command is launched. *)
Theorem invalid_cron_is_fatal (fuel : nat) (s : State) :
  cron_valid (cron args) = false ->
  exists s',
    main fuel s = (Raised CroniterBadCronError, s') /\
    exit_status (fst (main fuel s)) = Some 1 /\
    n_queries s' = n_queries s /\ n_sleeps s' = n_sleeps s /\
    n_runs s' = n_runs s.
Proof.
  intros Hv. unfold_py. rewrite Hv.
  destruct (quiet args); [|destruct (negb (no_richuru args))];
    eexists; repeat split.
Qed.

(** C3: when the command cannot be started the iteration logs the error
    and ends normally, and the loop goes on with the next iteration.  No
    flag is consulted: the statement holds for every [args], those with
    [exit_on_error] set included. *)
Theorem spawn_failure_continues (n : nat) (s s1 : State) (what : string) :
  wait_phase s = (Normal true, s1) ->
  run_oracle env (n_runs s1) = SpawnError what ->
  body s =
    (Normal tt,
     emit (Log ERROR (ErrorRunningCommand (OSError what))) (launched s1)) /\
  run_loop (S n) s =
    run_loop n
      (emit (Log ERROR (ErrorRunningCommand (OSError what))) (launched s1)).
Proof.
  intros Hw Hr.
  assert (Hb : body s =
               (Normal tt,
                emit (Log ERROR (ErrorRunningCommand (OSError what)))
                     (launched s1))).
  { rewrite (body_due s s1 Hw). now apply execute_phase_spawn_error. }
  split; [exact Hb | exact (run_loop_continue n _ _ Hb)].
Qed.

(** C10: a command that completes with return code 0 never ends the loop:
    its status is logged at level INFO and the next iteration follows,
    whatever [exit_on_error] and [ignored_codes] are. *)
Theorem exit_zero_continues (n : nat) (s s1 : State) :
  wait_phase s = (Normal true, s1) ->
  run_oracle env (n_runs s1) = Completed 0 ->
  body s = (Normal tt, emit (Log INFO (CommandExited 0)) (launched s1)) /\
  run_loop (S n) s =
    run_loop n (emit (Log INFO (CommandExited 0)) (launched s1)).
Proof.
  intros Hw Hr.
  assert (Hb : body s =
               (Normal tt, emit (Log INFO (CommandExited 0)) (launched s1))).
  { rewrite (body_due s s1 Hw). now apply execute_phase_zero. }
  split; [exact Hb | exact (run_loop_continue n _ _ Hb)].
Qed.

(** C5: when [exit_on_error] is off, or the non-zero return code is among
    [ignored_codes], the command's exit does not end the loop: after any
    number [N] of iterations that each ran the command to such an exit the
    loop is still running, and it has queried the calculator for a next run
    [N] more times. *)
Theorem tolerated_exit_keeps_looping (N : nat) (s : State) :
  cycles tolerated_exit N s ->
  fst (run_loop N s) = OutOfFuel /\
  n_runs (snd (run_loop N s)) = (n_runs s + N)%nat /\
  n_queries (snd (run_loop N s)) = (n_queries s + N)%nat.
Proof.
  revert s. induction N as [|n IH]; intros s Hc.
  - cbn. repeat split; lia.
  - destruct Hc as (s1 & Hw & (rc & Hr & Hnz & Htol) & Hrest).
    pose proof (execute_phase_tolerated s1 rc Hr Hnz Htol) as He.
    pose proof (body_due s s1 Hw) as Hb. rewrite He in Hb.
    rewrite Hb in Hrest. cbn [snd] in Hrest.
    rewrite (run_loop_continue n _ _ Hb).
    destruct (IH _ Hrest) as (Hf & Hruns & Hq).
    destruct (wait_phase_due s s1 Hw) as (Hq1 & _ & Hr1).
    cbn [emit launched count_run n_runs n_queries] in Hruns, Hq.
    repeat split; [exact Hf | lia | lia].
Qed.

(** C6, as the code has it: an interrupt that finds the program inside
    [time.sleep], or inside the [try] statement of line 80 where the
    command runs, ends it with status 0.  If [main] has been looping for
    [k] iterations and the operator interrupts the next one there, then
    however much fuel is left [main] ends with [typer.Exit(0)] in that
    very iteration (one more query of the calculator, none after it).
    Interrupted in the sleep, it launches no command; interrupted in the
    command, that command is the last. *)
Theorem interrupt_exits_with_status_0 (k n : nat) (s0 s : State) :
  main k s0 = (OutOfFuel, s) ->
  interrupted_in_wait s \/ interrupted_in_run s ->
  exists s',
    main (k + S n) s0 = (Raised (Exit 0), s') /\
    exit_status (fst (main (k + S n) s0)) = Some 0 /\
    n_queries s' = S (n_queries s) /\
    (interrupted_in_wait s -> n_runs s' = n_runs s) /\
    (interrupted_in_run s -> n_runs s' = S (n_runs s)).
Proof.
  intros Hk Hi. rewrite (main_add k (S n) s0 s Hk).
  assert (Hexcl : interrupted_in_wait s -> interrupted_in_run s -> False).
  { intros [He Ho] (s1 & Hw & _).
    rewrite (wait_phase_interrupted s He Ho) in Hw. discriminate. }
  destruct Hi as [[He Ho] | (s1 & Hw & Hr)].
  - pose proof (wait_phase_interrupted s He Ho) as Hw.
    assert (Hb : body s = (Raised (Exit 0), emit (Log INFO Exiting) (asleep s)))
      by (unfold body, bind; rewrite Hw; reflexivity).
    rewrite (run_loop_raise n _ _ _ Hb).
    eexists. split; [reflexivity|]. repeat split.
    intros Hrun. exfalso. apply Hexcl; [split|]; assumption.
  - pose proof (body_due s s1 Hw) as Hb.
    rewrite (execute_phase_keyboard_interrupt s1 Hr) in Hb.
    rewrite (run_loop_raise n _ _ _ Hb).
    destruct (wait_phase_due s s1 Hw) as (Hq1 & _ & Hr1).
    eexists. split; [reflexivity|]. cbn [fst exit_status].
    cbn [emit launched count_run n_runs n_queries].
    repeat split; [assumption | | congruence].
    intros Hwait. exfalso. apply Hexcl; [|exists s1; split]; assumption.
Qed.

(** ** What the program emits *)

Lemma extends_refl (P : event -> Prop) (s s' : State) :
  trace s' = trace s -> extends P s s'.
Proof.
  intros E. exists []. rewrite app_nil_r. split; [exact E | constructor].
Qed.

Lemma extends_trans (P : event -> Prop) (s1 s2 s3 : State) :
  extends P s1 s2 -> extends P s2 s3 -> extends P s1 s3.
Proof.
  intros (l1 & E1 & H1) (l2 & E2 & H2). exists (l1 ++ l2).
  split; [rewrite E2, E1, app_assoc; reflexivity | now apply Forall_app].
Qed.

Lemma extends_impl (P Q : event -> Prop) (s s' : State) :
  (forall ev, P ev -> Q ev) -> extends P s s' -> extends Q s s'.
Proof.
  intros HPQ (l & E & H). exists l. split; [exact E|].
  eapply Forall_impl; [exact HPQ | exact H].
Qed.

Lemma tidy_ret {A} (a : A) : tidy (ret a).
Proof. intros s. now apply extends_refl. Qed.

Lemma tidy_raise {A} (e : exn) : tidy (@raise A e).
Proof. intros s. now apply extends_refl. Qed.

Lemma tidy_bind {A B} (c : M A) (k : A -> M B) :
  tidy c -> (forall a, tidy (k a)) -> tidy (bind c k).
Proof.
  intros Hc Hk s. unfold bind. specialize (Hc s).
  destruct (c s) as [[a|e|] s1]; cbn [snd] in *; [|assumption..].
  eapply extends_trans; [exact Hc | apply Hk].
Qed.

Lemma tidy_dispatch {A} (clauses : list (clause A)) (e : exn) :
  Forall (fun cl => forall e', tidy (snd cl e')) clauses ->
  tidy (dispatch clauses e).
Proof.
  induction 1 as [|[catches handler] rest Hh _ IH]; cbn [dispatch].
  - apply tidy_raise.
  - destruct (catches e); [apply Hh | exact IH].
Qed.

Lemma tidy_try_except {A} (c : M A) (clauses : list (clause A)) :
  tidy c ->
  Forall (fun cl => forall e', tidy (snd cl e')) clauses ->
  tidy (try_except c clauses).
Proof.
  intros Hc Hcl s. unfold try_except. specialize (Hc s).
  destruct (c s) as [[a|e|] s1]; cbn [snd] in *; [assumption| |assumption].
  eapply extends_trans; [exact Hc | now apply tidy_dispatch].
Qed.

Lemma tidy_while_true (fuel : nat) (c : M unit) :
  tidy c -> tidy (while_true fuel c).
Proof.
  intros Hc. induction fuel as [|n IH]; cbn [while_true].
  - intros s. now apply extends_refl.
  - apply tidy_bind; [exact Hc | intros _; exact IH].
Qed.

Lemma tidy_emit (ev : event) (s : State) :
  as_configured ev -> extends as_configured s (emit ev s).
Proof. intros Hev. exists [ev]. split; [reflexivity | now constructor]. Qed.

Lemma tidy_logger (lvl : level) (m : log_msg) : tidy (logger lvl m).
Proof. intros s. now apply tidy_emit. Qed.

Lemma tidy_datetime_now : tidy datetime_now.
Proof. intros s. now apply extends_refl. Qed.

Lemma tidy_iter_get_next : tidy iter_get_next.
Proof. intros s. now apply extends_refl. Qed.

Lemma tidy_croniter (expr : string) (start : Z) : tidy (croniter expr start).
Proof.
  intros s. unfold croniter. destruct (cron_valid expr); now apply extends_refl.
Qed.

Lemma tidy_time_sleep (usecs : Z) : tidy (time_sleep usecs).
Proof.
  intros s. unfold time_sleep. destruct (usecs <? 0).
  - now apply extends_refl.
  - destruct (sleep_oracle env (n_sleeps s)); cbn [snd];
      apply (extends_trans _ _ (emit (Sleep usecs) s));
      solve [now apply tidy_emit | now apply extends_refl].
Qed.

Lemma tidy_subprocess_run :
  tidy (subprocess_run (command args) child_stdin child_stdout child_stderr).
Proof.
  intros s. unfold subprocess_run.
  destruct (run_oracle env (n_runs s)); cbn [snd];
    (eapply extends_trans; [apply tidy_emit | now apply extends_refl]);
    repeat split.
Qed.

Lemma tidy_pending_interrupt : tidy pending_interrupt.
Proof.
  intros s. unfold pending_interrupt.
  destruct (sigint_before_launch env _); now apply extends_refl.
Qed.

Ltac tidy_step :=
  first
    [ apply tidy_ret | apply tidy_raise | apply tidy_logger
    | apply tidy_pending_interrupt
    | apply tidy_datetime_now | apply tidy_iter_get_next
    | apply tidy_croniter | apply tidy_time_sleep | apply tidy_subprocess_run
    | apply tidy_bind | apply tidy_try_except
    | apply Forall_cons | apply Forall_nil
    | match goal with
      | |- tidy (if ?b then _ else _) => destruct b
      | |- forall _, _ => intro
      end ].

Lemma tidy_wait_phase : tidy wait_phase.
Proof. unfold wait_phase. repeat tidy_step. Qed.

Lemma tidy_execute_phase : tidy execute_phase.
Proof. unfold execute_phase. repeat (cbn [snd]; tidy_step). Qed.

Lemma tidy_body : tidy body.
Proof.
  unfold body. apply tidy_bind; [apply tidy_wait_phase|].
  intros [|]; [apply tidy_execute_phase | apply tidy_ret].
Qed.

Lemma tidy_main (fuel : nat) : tidy (main fuel).
Proof.
  unfold main, startup, run_loop, effect.
  repeat first [ apply tidy_while_true | apply tidy_body | tidy_step
               | intros s; now apply tidy_emit ].
Qed.

(** ** The child's streams *)

(** C9: in every run of the program, from any state and for any fuel, each
    command is launched with its standard input on [subprocess.DEVNULL]
    when [stdin] is off (so not on the scheduler's standard input), and on
    [sys.stdin] when it is on. *)
Theorem child_stdin_follows_flag (fuel : nat) (s : State) :
  extends stdin_as_enabled s (snd (main fuel s)).
Proof.
  apply (extends_impl as_configured); [|apply tidy_main].
  intros [| | | |cmd i o e]; cbn; try trivial.
  intros (_ & -> & _). unfold child_stdin. destruct (stdin args); reflexivity.
Qed.

(** C8, as the code has it: with [stderr_to_stdout] set, each command is
    launched with its standard error on the scheduler's own standard
    output, [sys.stdout]; this is the destination of the child's standard
    output if and only if [no_output] is off. *)
Theorem stderr_goes_to_sys_stdout (fuel : nat) (s : State) :
  stderr_to_stdout args = true ->
  extends stderr_on_sys_stdout s (snd (main fuel s)).
Proof.
  intros Hr. apply (extends_impl as_configured); [|apply tidy_main].
  intros [| | | |cmd i o e]; cbn; try trivial.
  intros (_ & _ & -> & ->). unfold child_stderr, child_stdout. rewrite Hr.
  destruct (no_output args); cbn; (split; [reflexivity|]);
    split; intros; congruence.
Qed.

(** ** The requery loop *)



(** ** One iteration, case by case *)

Lemma wait_phase_overslept (s : State) :
  overslept s ->
  wait_phase s =
  (Raised (ValueError "sleep length must be non-negative"), woke_late s).
Proof.
  unfold overslept, candidate_in_past. intros [Hf Hs].
  apply Z.ltb_lt in Hs. cbn [Nat.add] in Hs.
  unfold_py. rewrite Hf. unfold_py. rewrite Hs. reflexivity.
Qed.

Lemma body_raise (s s1 : State) (e : exn) :
  wait_phase s = (Raised e, s1) -> body s = (Raised e, s1).
Proof. intros Hw. unfold body, bind. rewrite Hw. reflexivity. Qed.

(** Line 61 either sends the iteration back to the calculator, or the
    sleep is entered, or its length is negative. *)
Lemma wait_cases (s : State) :
  candidate_in_past s = true \/ overslept s \/ sleep_entered s.
Proof.
  unfold overslept, sleep_entered.
  destruct (candidate_in_past s); [now left | right].
  destruct (Z.lt_ge_cases
              (cron_next (cron args) (iter_cur s)
               - clock env (2 + clock_reads s)) 0);
    [left | right]; split; trivial.
Qed.

Lemma wait_phase_launch_interrupted (s : State) :
  sleep_entered s ->
  sleep_oracle env (n_sleeps s) = SleepElapsed ->
  sigint_before_launch env (n_sleeps s) = true ->
  wait_phase s = (Raised KeyboardInterrupt, asleep s).
Proof.
  unfold sleep_entered, candidate_in_past. intros [Hf Hs] Ho Hi.
  apply Z.ltb_ge in Hs. cbn [Nat.add] in Hs.
  unfold_py. rewrite Hf. unfold_py. rewrite Hs, Ho.
  unfold_py. cbn [Nat.pred]. rewrite Hi. reflexivity.
Qed.

(** Every iteration takes one of the nine courses. *)
Lemma body_iteration (s : State) : iteration s (fst (body s)) (snd (body s)).
Proof.
  destruct (wait_cases s) as [Hp | [Ho | He]].
  - rewrite (body_requery s _ (wait_phase_past s Hp)). now apply Requery.
  - rewrite (body_raise s _ _ (wait_phase_overslept s Ho)). now apply WokeLate.
  - destruct (sleep_oracle env (n_sleeps s)) eqn:Hsl.
    + destruct (sigint_before_launch env (n_sleeps s)) eqn:Hsi.
      { rewrite (body_raise s _ _ (wait_phase_launch_interrupted s He Hsl Hsi)).
        now apply LaunchInterrupt. }
      assert (Hd : due s) by (repeat split; try assumption; apply He).
      rewrite (body_due s _ (wait_phase_elapsed s He Hsl Hsi)).
      assert (Hn : n_runs (asleep s) = n_runs s) by reflexivity.
      destruct (run_oracle env (n_runs s)) as [rc|what|] eqn:Hr.
      * destruct (Z.eq_dec rc 0) as [-> | Hnz].
        { rewrite execute_phase_zero by (rewrite Hn; exact Hr).
          now apply ExitedZero. }
        destruct (exit_on_error args) eqn:Heoe.
        { destruct (in_dec Z.eq_dec rc (ignored_codes args)) as [Hin | Hni].
          - rewrite (execute_phase_tolerated _ rc)
              by (rewrite ?Hn; auto).
            apply ExitedTolerated; auto.
          - rewrite (execute_phase_fatal _ rc) by (rewrite ?Hn; auto).
            apply ExitedFatal; auto. }
        rewrite (execute_phase_tolerated _ rc) by (rewrite ?Hn; auto).
        apply ExitedTolerated; auto.
      * rewrite (execute_phase_spawn_error _ what) by (rewrite Hn; exact Hr).
        now apply SpawnFailed.
      * rewrite execute_phase_keyboard_interrupt by (rewrite Hn; exact Hr).
        now apply RunInterrupt.
    + rewrite (body_raise s _ _ (wait_phase_interrupted s He Hsl)).
      now apply SleepInterrupt.
Qed.

(** ** What a run leaves in the state and in the trace *)

(** A relation between states that holds across the startup and across
    every iteration holds across every run. *)
Lemma run_loop_relates (R : State -> State -> Prop) :
  (forall s, R s s) ->
  (forall a b c, R a b -> R b c -> R a c) ->
  (forall s, R s (snd (body s))) ->
  forall (N : nat) (s : State), R s (snd (run_loop N s)).
Proof.
  intros Hrefl Htrans Hbody. induction N as [|n IH]; intros s.
  - apply Hrefl.
  - rewrite run_loop_S. specialize (Hbody s).
    destruct (body s) as [[[]|e|] s1]; cbn [snd] in *; try assumption.
    eapply Htrans; [exact Hbody | apply IH].
Qed.

Lemma main_relates (R : State -> State -> Prop) :
  (forall s, R s s) ->
  (forall a b c, R a b -> R b c -> R a c) ->
  (forall s, R s (snd (startup s))) ->
  (forall s, R s (snd (body s))) ->
  forall (fuel : nat) (s : State), R s (snd (main fuel s)).
Proof.
  intros Hrefl Htrans Hstart Hbody fuel s. unfold main, bind.
  specialize (Hstart s).
  destruct (startup s) as [[[]|e|] s1]; cbn [snd] in *; try assumption.
  eapply Htrans; [exact Hstart | now apply run_loop_relates].
Qed.

(** The startup adds the banner to the trace and changes no counter. *)
Lemma startup_trace (s : State) :
  trace (snd (startup s)) = trace s ++ banner.
Proof.
  unfold banner, setup_events. unfold_py.
  destruct (quiet args); [|destruct (negb (no_richuru args))];
    destruct (cron_valid (cron args));
    cbn [snd trace set_cursor tick_clock emit app];
    rewrite <- ?app_assoc; reflexivity.
Qed.

Lemma startup_counters (s : State) :
  n_queries (snd (startup s)) = n_queries s /\
  n_sleeps (snd (startup s)) = n_sleeps s /\
  n_runs (snd (startup s)) = n_runs s.
Proof.
  unfold_py.
  destruct (quiet args); [|destruct (negb (no_richuru args))];
    destruct (cron_valid (cron args)); repeat split.
Qed.

Lemma startup_outcome (s : State) :
  fst (startup s) = Normal tt \/
  (cron_valid (cron args) = false /\
   fst (startup s) = Raised CroniterBadCronError).
Proof.
  unfold_py.
  destruct (quiet args); [|destruct (negb (no_richuru args))];
    destruct (cron_valid (cron args)); cbn [fst]; auto.
Qed.

Lemma extends_emit (P : event -> Prop) (ev : event) (s : State) :
  P ev -> extends P s (emit ev s).
Proof. intros Hev. exists [ev]. split; [reflexivity | now constructor]. Qed.

(** The events of one iteration, for any property that holds of the
    events the nine courses emit. *)
Lemma iteration_events (P : event -> Prop) :
  (forall t, P (Log WARNING (NextRunInPast t))) ->
  (forall t d, P (Log INFO (NextRunAt t d))) ->
  (forall usecs, 0 <= usecs -> P (Sleep usecs)) ->
  P (Log INFO Exiting) ->
  P (Log INFO RunningJob) ->
  P (Log DEBUG (RunningCommand (command args))) ->
  P (Run (command args) child_stdin child_stdout child_stderr) ->
  (forall rc, P (Log INFO (CommandExited rc))) ->
  (forall rc, rc <> 0 -> P (Log ERROR (CommandExited rc))) ->
  (forall e, P (Log ERROR (ErrorRunningCommand e))) ->
  forall (s : State) (o : outcome unit) (s' : State),
    iteration s o s' -> extends P s s'.
Proof.
  intros Hpast Hat Hsleep Hexit Hjob Hcmd Hrun Hinfo Herr Hexn s o s'.
  assert (Hasleep : sleep_entered s -> extends P s (asleep s)).
  { intros [_ Hs]. unfold asleep.
    eapply extends_trans; [|apply extends_refl; reflexivity].
    eapply extends_trans; [|apply extends_emit, Hsleep, Hs].
    eapply extends_trans; [|apply extends_refl; reflexivity].
    eapply extends_trans; [|apply extends_emit, Hat].
    now apply extends_refl. }
  assert (Hlaunched : forall s1, extends P s1 (launched s1)).
  { intros s1. unfold launched.
    eapply extends_trans; [|apply extends_refl; reflexivity].
    eapply extends_trans; [|apply extends_emit, Hrun].
    eapply extends_trans; [|apply extends_emit, Hcmd].
    eapply extends_trans; [|apply extends_emit, Hjob].
    now apply extends_refl. }
  assert (Hdue : due s -> extends P s (launched (asleep s))).
  { intros [He _]. eapply extends_trans; [apply Hasleep, He | apply Hlaunched]. }
  destruct 1.
  - unfold requeried.
    eapply extends_trans; [|apply extends_emit, Hpast].
    now apply extends_refl.
  - unfold woke_late.
    eapply extends_trans; [|apply extends_refl; reflexivity].
    eapply extends_trans; [|apply extends_emit, Hat].
    now apply extends_refl.
  - eapply extends_trans; [now apply Hasleep | now apply extends_emit].
  - now apply Hasleep.
  - eapply extends_trans; [now apply Hdue | apply extends_emit, Hinfo].
  - eapply extends_trans; [now apply Hdue|].
    eapply extends_trans; [apply extends_emit | apply extends_emit]; auto.
  - eapply extends_trans; [now apply Hdue|].
    eapply extends_trans; [apply extends_emit | apply extends_emit]; auto.
  - eapply extends_trans; [now apply Hdue | apply extends_emit, Hexn].
  - eapply extends_trans; [now apply Hdue | now apply extends_emit].
Qed.

(** The events of one iteration. *)
Lemma iteration_emits (s : State) (o : outcome unit) (s' : State) :
  iteration s o s' -> extends may_emit s s'.
Proof.
  apply iteration_events; cbn; eauto.
Qed.

(** No iteration configures the logger. *)
Lemma iteration_past_setup (s : State) (o : outcome unit) (s' : State) :
  iteration s o s' -> extends after_setup s s'.
Proof.
  apply iteration_events; cbn; trivial.
Qed.

Lemma banner_may_emit : Forall may_emit banner.
Proof.
  unfold banner, setup_events. apply Forall_app. split.
  - destruct (quiet args) eqn:Hq; [repeat constructor; exact Hq|].
    destruct (no_richuru args) eqn:Hn; cbn [negb]; repeat constructor;
      assumption.
  - repeat constructor.
Qed.

(** Every run of [main] only adds events that it may emit. *)
Lemma main_emits (fuel : nat) (s : State) :
  extends may_emit s (snd (main fuel s)).
Proof.
  apply main_relates.
  - intros s1. now apply extends_refl.
  - intros a b c. apply extends_trans.
  - intros s1. exists banner. split; [apply startup_trace | apply banner_may_emit].
  - intros s1. exact (iteration_emits s1 _ _ (body_iteration s1)).
Qed.

(** *** How the program can end *)

Lemma iteration_outcome (s : State) (o : outcome unit) (s' : State) :
  iteration s o s' ->
  o = Normal tt \/ o = Raised (Exit 0) \/ o = Raised KeyboardInterrupt \/
  o = Raised (ValueError "sleep length must be non-negative").
Proof. destruct 1; auto. Qed.

(** X1: a [typer.Exit] that escapes [main] has code 0.  The
    [typer.Exit(returncode)] of line 92 never leaves [main], so no
    command's return code becomes the exit status through it. *)
Theorem only_exit_zero_escapes (fuel : nat) (s : State) (code : Z) :
  fst (main fuel s) = Raised (Exit code) -> code = 0.
Proof.
  assert (Hloop : forall N s1,
            fst (run_loop N s1) = Raised (Exit code) -> code = 0).
  { induction N as [|n IH]; intros s1; [discriminate|].
    rewrite run_loop_S.
    pose proof (iteration_outcome s1 _ _ (body_iteration s1)) as Ho.
    destruct (body s1) as [[[]|e|] s2]; cbn [fst] in *.
    - apply IH.
    - intros He. injection He as ->.
      destruct Ho as [Ho | [Ho | [Ho | Ho]]]; congruence.
    - discriminate. }
  unfold main, bind. pose proof (startup_outcome s) as Hs.
  destruct (startup s) as [[[]|e|] s1]; cbn [fst] in *.
  - apply Hloop.
  - intros He. destruct Hs as [Hs | [_ Hs]]; congruence.
  - discriminate.
Qed.

(** X2: when the process is held up between the test of line 61 and the
    computation of line 69 until the run is overdue, [time.sleep] gets a
    negative length: its [ValueError] is not caught by line 73 and ends the
    program with status 1; nothing is slept and no command is launched. *)
Theorem late_wakeup_is_fatal (n : nat) (s : State) :
  overslept s ->
  run_loop (S n) s =
    (Raised (ValueError "sleep length must be non-negative"), woke_late s) /\
  exit_status (fst (run_loop (S n) s)) = Some 1 /\
  n_sleeps (woke_late s) = n_sleeps s /\
  n_runs (woke_late s) = n_runs s.
Proof.
  intros Ho.
  pose proof (body_raise s _ _ (wait_phase_overslept s Ho)) as Hb.
  rewrite (run_loop_raise n _ _ _ Hb). repeat split.
Qed.

(** X3: a run that is due at or before the current reading of the clock is not
    caught up with; "at" included, the test of line 61 being [<=].  The
    iteration logs the warning with the missed instant, moves the cursor
    there, and neither sleeps nor launches the command. *)
Theorem past_run_is_skipped (s : State) :
  cron_next (cron args) (iter_cur s) <= clock env (clock_reads s) ->
  body s = (Normal tt, requeried s) /\
  trace (requeried s) =
    trace s ++
    [Log WARNING (NextRunInPast (cron_next (cron args) (iter_cur s)))] /\
  iter_cur (requeried s) = cron_next (cron args) (iter_cur s) /\
  n_sleeps (requeried s) = n_sleeps s /\
  n_runs (requeried s) = n_runs s.
Proof.
  intros Hle.
  assert (Hp : candidate_in_past s = true)
    by (unfold candidate_in_past; now apply Z.leb_le).
  split; [exact (body_requery s _ (wait_phase_past s Hp))|].
  unfold requeried. cbn. repeat split.
Qed.

(** *** Counting queries, sleeps and launches *)

Lemma invalid_cron_stops (fuel : nat) (s : State) :
  cron_valid (cron args) = false ->
  exists s', main fuel s = (Raised CroniterBadCronError, s').
Proof.
  intros Hv. unfold_py. rewrite Hv.
  destruct (quiet args); [|destruct (negb (no_richuru args))];
    eexists; reflexivity.
Qed.

Lemma iteration_cursor (s : State) (o : outcome unit) (s' : State) :
  iteration s o s' ->
  n_queries s' = S (n_queries s) /\
  iter_cur s' = cron_next (cron args) (iter_cur s).
Proof. destruct 1; split; reflexivity. Qed.

(** X4: each iteration queries the calculator exactly once and takes what
    it returns as the new cursor: when [main] is still looping after
    [fuel] iterations, there have been [fuel] queries and the cursor is
    the result of applying the calculator [fuel] times to the clock
    reading of the startup. *)
Theorem one_query_per_iteration (fuel : nat) (s : State) :
  fst (main fuel s) = OutOfFuel ->
  n_queries (snd (main fuel s)) = (n_queries s + fuel)%nat /\
  iter_cur (snd (main fuel s)) =
    Nat.iter fuel (cron_next (cron args)) (iter_cur (started s)).
Proof.
  intros Hloop.
  assert (Hv : cron_valid (cron args) = true).
  { destruct (cron_valid (cron args)) eqn:Hv; [reflexivity|].
    destruct (invalid_cron_stops fuel s Hv) as (s' & Hm).
    rewrite Hm in Hloop. discriminate. }
  rewrite main_started in * by exact Hv.
  assert (Hq : n_queries (started s) = n_queries s).
  { unfold started. destruct (quiet args);
      [|destruct (negb (no_richuru args))]; reflexivity. }
  rewrite <- Hq. revert Hloop. generalize (started s). clear Hq s.
  induction fuel as [|n IH]; intros s.
  - intros _. cbn. split; [lia | reflexivity].
  - rewrite run_loop_S.
    destruct (iteration_cursor s _ _ (body_iteration s)) as [Hq Hc].
    pose proof (body_ends s) as Hends.
    destruct (body s) as [[[]|e|] s1]; cbn [fst snd] in *;
      [|discriminate|contradiction].
    intros Hloop. destruct (IH s1 Hloop) as [Hqn Hcn].
    rewrite Nat.iter_succ_r, <- Hc. split; [lia | exact Hcn].
Qed.

Lemma iteration_pairs (s : State) (o : outcome unit) (s' : State) :
  iteration s o s' ->
  exists k d : nat,
    (k + d <= 1)%nat /\
    n_runs s' = (n_runs s + k)%nat /\
    n_sleeps s' = (n_sleeps s + k + d)%nat /\
    (d = O \/
     (d = 1%nat /\ (o = Raised (Exit 0) \/ o = Raised KeyboardInterrupt))).
Proof.
  destruct 1;
    [ exists O, O | exists O, O | exists O, 1%nat | exists O, 1%nat
    | exists 1%nat, O .. ];
    cbn; repeat split; try lia; auto.
Qed.

(** X5: every command is launched after a sleep of its own, and every
    sleep is followed by its command unless the operator's interrupt
    comes first: a run of [main] launches [k] commands and enters [k + d]
    sleeps, with [k + d] at most the number of iterations, and [d] is 0,
    or 1 when the program was stopped in or right after its last sleep
    (it ended with [typer.Exit(0)] or with [KeyboardInterrupt]). *)
Theorem every_launch_follows_its_sleep (fuel : nat) (s : State) :
  exists k d : nat,
    (k + d <= fuel)%nat /\
    n_runs (snd (main fuel s)) = (n_runs s + k)%nat /\
    n_sleeps (snd (main fuel s)) = (n_sleeps s + k + d)%nat /\
    (d = O \/
     (d = 1%nat /\
      (fst (main fuel s) = Raised (Exit 0) \/
       fst (main fuel s) = Raised KeyboardInterrupt))).
Proof.
  assert (Hloop : forall N s1,
            exists k d : nat,
              (k + d <= N)%nat /\
              n_runs (snd (run_loop N s1)) = (n_runs s1 + k)%nat /\
              n_sleeps (snd (run_loop N s1)) = (n_sleeps s1 + k + d)%nat /\
              (d = O \/
               (d = 1%nat /\
                (fst (run_loop N s1) = Raised (Exit 0) \/
                 fst (run_loop N s1) = Raised KeyboardInterrupt)))).
  { induction N as [|n IH]; intros s1.
    - exists O, O. cbn. repeat split; try lia; auto.
    - rewrite run_loop_S.
      destruct (iteration_pairs s1 _ _ (body_iteration s1))
        as (k1 & d1 & Hle & Hr & Hs & Hd).
      pose proof (body_ends s1) as Hends.
      destruct (body s1) as [[[]|e|] s2]; cbn [fst snd] in *.
      + destruct Hd as [-> | [_ [Hd | Hd]]]; [|discriminate..].
        destruct (IH s2) as (k & d & Hle' & Hr' & Hs' & Hd').
        exists (k1 + k)%nat, d. repeat split; try lia; exact Hd'.
      + exists k1, d1. repeat split; try lia; exact Hd.
      + contradiction. }
  unfold main, bind.
  destruct (startup_counters s) as (_ & Hsl & Hru).
  pose proof (startup_outcome s) as Hso.
  destruct (startup s) as [[[]|e|] s1]; cbn [fst snd] in *.
  - destruct (Hloop fuel s1) as (k & d & Hle & Hr & Hs & Hd).
    exists k, d. repeat split; try lia; exact Hd.
  - exists O, O. repeat split; try lia; auto.
  - exists O, O. repeat split; try lia; auto.
Qed.

(** *** What the trace shows *)

(** X6: in every run each command is launched as the command line gives it,
    with its standard output on the null device under [--no-output] and on
    the scheduler's standard output otherwise, and with its standard error
    on the scheduler's standard error unless [--stderr-to-stdout] is
    given. *)
Theorem launches_are_as_given (fuel : nat) (s : State) :
  extends launch_as_given s (snd (main fuel s)).
Proof.
  apply (extends_impl as_configured); [|apply tidy_main].
  intros [| | | |cmd i o e]; cbn; try trivial.
  intros (-> & _ & -> & ->). unfold child_stdout, child_stderr.
  split; [reflexivity|]. split.
  - destruct (no_output args); reflexivity.
  - intros ->. reflexivity.
Qed.

(** X7: the logger is configured once, before anything is logged, and
    [--quiet] wins over the colours: the events of a run are the banner
    followed by events none of which configures the logger; the sink for
    errors only is set up exactly when [quiet] is on, and richuru is
    installed exactly when both [quiet] and [no_richuru] are off. *)
Theorem logger_setup (fuel : nat) (s : State) :
  exists rest : list event,
    trace (snd (main fuel s)) = trace s ++ banner ++ rest /\
    Forall after_setup rest /\
    (In LoggerErrorsOnly (banner ++ rest) <-> quiet args = true) /\
    (In InstallRichuru (banner ++ rest) <->
     quiet args = false /\ no_richuru args = false).
Proof.
  assert (Hrest : exists rest,
            trace (snd (main fuel s)) = trace s ++ banner ++ rest /\
            Forall after_setup rest).
  { unfold main, bind. pose proof (startup_trace s) as Hb.
    destruct (startup s) as [[[]|e|] s1]; cbn [snd] in *.
    - destruct (run_loop_relates (extends after_setup)) with (N := fuel)
        (s := s1) as (rest & Hr & Hall).
      + intros s2. now apply extends_refl.
      + intros a b c. apply extends_trans.
      + intros s2. exact (iteration_past_setup s2 _ _ (body_iteration s2)).
      + exists rest. split; [|exact Hall].
        rewrite Hr, Hb, app_assoc. reflexivity.
    - exists []. split; [now rewrite app_nil_r | constructor].
    - exists []. split; [now rewrite app_nil_r | constructor]. }
  destruct Hrest as (rest & Hrest & Hafter). exists rest.
  split; [exact Hrest|]. split; [exact Hafter|].
  destruct (main_emits fuel s) as (l & Hl & Hall).
  rewrite Hrest in Hl. apply app_inv_head in Hl. subst l.
  rewrite Forall_forall in Hall.
  assert (Hin : forall ev, In ev setup_events -> In ev (banner ++ rest)).
  { intros ev H. unfold banner. rewrite <- app_assoc.
    apply in_or_app. now left. }
  split; split.
  - intros H. exact (Hall _ H).
  - intros Hq. apply Hin. unfold setup_events. rewrite Hq. now left.
  - intros H. exact (Hall _ H).
  - intros [Hq Hn]. apply Hin. unfold setup_events. rewrite Hq, Hn. now left.
Qed.

(** X8: the only messages logged at level ERROR report that a command exited
    with a non-zero status or that running it raised an exception: with
    [--quiet], which keeps errors only, nothing else is shown. *)
Theorem errors_report_failures (fuel : nat) (s : State) :
  extends errors_are_failures s (snd (main fuel s)).
Proof.
  apply (extends_impl may_emit); [|apply main_emits].
  intros [| |[] m| |]; cbn; try trivial.
  destruct m; try contradiction; eauto.
Qed.

(** X9: the return code of a command that completes is always logged: at level
    INFO when it is 0 and at level ERROR otherwise. *)
Theorem return_code_is_logged (s : State) (rc : Z) :
  run_oracle env (n_runs s) = Completed rc ->
  exists l : list event,
    trace (snd (execute_phase s)) = trace s ++ l /\
    In (Log (if rc =? 0 then INFO else ERROR) (CommandExited rc)) l.
Proof.
  intros Hr.
  assert (Hl : trace (launched s) =
               trace s ++
               [ Log INFO RunningJob;
                 Log DEBUG (RunningCommand (command args));
                 Run (command args) child_stdin child_stdout child_stderr ]).
  { unfold launched. cbn. rewrite <- !app_assoc. reflexivity. }
  destruct (Z.eq_dec rc 0) as [-> | Hnz].
  - rewrite (execute_phase_zero s Hr). eexists. split.
    + cbn [snd emit trace]. rewrite Hl, <- app_assoc. reflexivity.
    + cbn. tauto.
  - assert (Hb : (rc =? 0) = false) by now apply Z.eqb_neq.
    rewrite Hb.
    destruct (exit_on_error args) eqn:Heoe;
      [destruct (in_dec Z.eq_dec rc (ignored_codes args)) as [Hin | Hni]|].
    + rewrite (execute_phase_tolerated s rc Hr Hnz (or_intror Hin)).
      eexists. split.
      * cbn [snd emit trace]. rewrite Hl, <- !app_assoc. reflexivity.
      * cbn. tauto.
    + rewrite (execute_phase_fatal s rc Hr Hnz Heoe Hni).
      eexists. split.
      * cbn [snd emit trace]. rewrite Hl, <- !app_assoc. reflexivity.
      * cbn. tauto.
    + rewrite (execute_phase_tolerated s rc Hr Hnz (or_introl Heoe)).
      eexists. split.
      * cbn [snd emit trace]. rewrite Hl, <- !app_assoc. reflexivity.
      * cbn. tauto.
Qed.

(** *** The clean exit *)

Lemma asleep_trace (s : State) : exists l, trace (asleep s) = trace s ++ l.
Proof.
  eexists. unfold asleep.
  cbn [emit trace tick_clock count_sleep count_query set_cursor].
  rewrite <- app_assoc. reflexivity.
Qed.

Lemma launched_trace (s : State) : exists l, trace (launched s) = trace s ++ l.
Proof.
  eexists. unfold launched. cbn [emit trace count_run].
  rewrite <- !app_assoc. reflexivity.
Qed.

Lemma iteration_exit (s : State) (o : outcome unit) (s' : State) :
  iteration s o s' ->
  o = Raised (Exit 0) ->
  exists l, trace s' = trace s ++ l ++ [Log INFO Exiting].
Proof.
  destruct (asleep_trace s) as (la & Ha).
  destruct (launched_trace (asleep s)) as (ll & Hl). rewrite Ha in Hl.
  destruct 1; intros Ho; try discriminate Ho; cbn [emit trace].
  - exists la. rewrite Ha, <- app_assoc. reflexivity.
  - exists (la ++ ll). rewrite Hl, <- !app_assoc. reflexivity.
Qed.

(** X11: when the program ends with [typer.Exit(0)], the last thing it has
    done is to log "Exiting...", at level INFO (lines 74 and 96). *)
Theorem clean_exit_says_exiting (fuel : nat) (s : State) :
  fst (main fuel s) = Raised (Exit 0) ->
  exists l, trace (snd (main fuel s)) = trace s ++ l ++ [Log INFO Exiting].
Proof.
  assert (Hloop : forall N s1,
            fst (run_loop N s1) = Raised (Exit 0) ->
            exists l,
              trace (snd (run_loop N s1)) = trace s1 ++ l ++ [Log INFO Exiting]).
  { induction N as [|n IH]; intros s1; [discriminate|].
    rewrite run_loop_S.
    pose proof (body_iteration s1) as Hit.
    destruct (body s1) as [[[]|e|] s2]; cbn [fst snd] in *.
    - intros Hex. destruct (IH s2 Hex) as (l & Hl).
      destruct (iteration_emits _ _ _ Hit) as (l1 & Hl1 & _).
      exists (l1 ++ l). rewrite Hl, Hl1, <- !app_assoc. reflexivity.
    - intros Hex. exact (iteration_exit _ _ _ Hit Hex).
    - discriminate. }
  unfold main, bind. pose proof (startup_trace s) as Hb.
  pose proof (startup_outcome s) as Hso.
  destruct (startup s) as [[[]|e|] s1]; cbn [fst snd] in *.
  - intros Hex. destruct (Hloop fuel s1 Hex) as (l & Hl).
    exists (banner ++ l). rewrite Hl, Hb, <- !app_assoc. reflexivity.
  - intros Hex. destruct Hso as [Hso | [_ Hso]]; congruence.
  - discriminate.
Qed.

End Croncycle.

(** ** The sample worlds at work *)

Lemma every_advances (period : Z) (expr : string) (c : Z) :
  0 < period -> c < every period expr c.
Proof.
  intros Hp. unfold every.
  pose proof (Z.div_mod c period) as Hdm.
  pose proof (Z.mod_pos_bound c period Hp) as Hb. nia.
Qed.

Lemma every_positive (period : Z) (expr : string) (c : Z) :
  0 < period -> 0 <= c -> 0 < every period expr c.
Proof. intros Hp Hc. pose proof (every_advances period expr c Hp). lia. Qed.

(** The expression of three fields ends the program before the loop. *)
Lemma invalid_cron_is_fatal_witness :
  exists s',
    main only_stars (every minute) bad_job (still_world (Completed 0)) 5
      initial_state = (Raised CroniterBadCronError, s') /\
    exit_status
      (fst (main only_stars (every minute) bad_job (still_world (Completed 0))
              5 initial_state)) = Some 1 /\
    n_queries s' = n_queries initial_state /\
    n_sleeps s' = n_sleeps initial_state /\
    n_runs s' = n_runs initial_state.
Proof.
  apply (invalid_cron_is_fatal only_stars (every minute) bad_job
           (still_world (Completed 0)) 5 initial_state).
  reflexivity.
Defined.

(** The strict job, whose command does not exist, goes on to its second
    iteration. *)
Lemma spawn_failure_continues_witness :
  body (every minute) strict_job missing_binary initial_state =
    (Normal tt,
     emit (Log ERROR
             (ErrorRunningCommand (OSError "No such file or directory")))
       (launched strict_job
          (asleep (every minute) strict_job missing_binary initial_state))) /\
  run_loop (every minute) strict_job missing_binary 2 initial_state =
    run_loop (every minute) strict_job missing_binary 1
      (emit (Log ERROR
               (ErrorRunningCommand (OSError "No such file or directory")))
         (launched strict_job
            (asleep (every minute) strict_job missing_binary initial_state))).
Proof.
  apply (spawn_failure_continues (every minute) strict_job missing_binary 1
           initial_state
           (asleep (every minute) strict_job missing_binary initial_state)
           "No such file or directory"); reflexivity.
Defined.

(** The strict job, whose command exits 0, goes on to its second
    iteration. *)
Lemma exit_zero_continues_witness :
  body (every minute) strict_job (still_world (Completed 0)) initial_state =
    (Normal tt,
     emit (Log INFO (CommandExited 0))
       (launched strict_job
          (asleep (every minute) strict_job (still_world (Completed 0))
             initial_state))) /\
  run_loop (every minute) strict_job (still_world (Completed 0)) 2
    initial_state =
    run_loop (every minute) strict_job (still_world (Completed 0)) 1
      (emit (Log INFO (CommandExited 0))
         (launched strict_job
            (asleep (every minute) strict_job (still_world (Completed 0))
               initial_state))).
Proof.
  apply (exit_zero_continues (every minute) strict_job
           (still_world (Completed 0)) 1 initial_state
           (asleep (every minute) strict_job (still_world (Completed 0))
              initial_state)); reflexivity.
Defined.

(** Three iterations of the lenient job whose command exits 1, and of the
    strict job that ignores the 2 its command exits with. *)
Lemma tolerated_exit_keeps_looping_witness :
  (fst (run_loop (every minute) lenient_job (still_world (Completed 1)) 3
          initial_state) = OutOfFuel /\
   n_runs (snd (run_loop (every minute) lenient_job
                  (still_world (Completed 1)) 3 initial_state))
   = (n_runs initial_state + 3)%nat /\
   n_queries (snd (run_loop (every minute) lenient_job
                     (still_world (Completed 1)) 3 initial_state))
   = (n_queries initial_state + 3)%nat) /\
  (fst (run_loop (every minute) forgiving_job (still_world (Completed 2)) 3
          initial_state) = OutOfFuel /\
   n_runs (snd (run_loop (every minute) forgiving_job
                  (still_world (Completed 2)) 3 initial_state))
   = (n_runs initial_state + 3)%nat /\
   n_queries (snd (run_loop (every minute) forgiving_job
                     (still_world (Completed 2)) 3 initial_state))
   = (n_queries initial_state + 3)%nat).
Proof.
  split.
  - apply (tolerated_exit_keeps_looping (every minute) lenient_job
             (still_world (Completed 1)) 3 initial_state).
    cbn [cycles].
    repeat (eexists; split; [vm_compute; reflexivity|];
            split; [exists 1; split; [reflexivity|];
                    split; [discriminate | now left] |]).
    exact I.
  - apply (tolerated_exit_keeps_looping (every minute) forgiving_job
             (still_world (Completed 2)) 3 initial_state).
    cbn [cycles].
    repeat (eexists; split; [vm_compute; reflexivity|];
            split; [exists 2; split; [reflexivity|];
                    split; [discriminate | right; cbn; tauto] |]).
    exact I.
Defined.

(** The operator interrupts the second sleep, and in another world the
    second command, of the strict job. *)
Lemma interrupt_exits_with_status_0_witness :
  (exists s',
     main only_stars (every minute) strict_job interrupt_second_sleep (1 + 4)
       initial_state = (Raised (Exit 0), s') /\
     exit_status
       (fst (main only_stars (every minute) strict_job interrupt_second_sleep
               (1 + 4) initial_state)) = Some 0 /\
     n_queries s' =
       S (n_queries
            (state_after only_stars (every minute) strict_job
               interrupt_second_sleep 1 initial_state)) /\
     (interrupted_in_wait (every minute) strict_job interrupt_second_sleep
        (state_after only_stars (every minute) strict_job
           interrupt_second_sleep 1 initial_state) ->
      n_runs s' =
        n_runs
          (state_after only_stars (every minute) strict_job
             interrupt_second_sleep 1 initial_state)) /\
     (interrupted_in_run (every minute) strict_job interrupt_second_sleep
        (state_after only_stars (every minute) strict_job
           interrupt_second_sleep 1 initial_state) ->
      n_runs s' =
        S (n_runs
             (state_after only_stars (every minute) strict_job
                interrupt_second_sleep 1 initial_state)))) /\
  (exists s',
     main only_stars (every minute) strict_job interrupt_second_run (1 + 4)
       initial_state = (Raised (Exit 0), s') /\
     exit_status
       (fst (main only_stars (every minute) strict_job interrupt_second_run
               (1 + 4) initial_state)) = Some 0 /\
     n_queries s' =
       S (n_queries
            (state_after only_stars (every minute) strict_job
               interrupt_second_run 1 initial_state)) /\
     (interrupted_in_wait (every minute) strict_job interrupt_second_run
        (state_after only_stars (every minute) strict_job
           interrupt_second_run 1 initial_state) ->
      n_runs s' =
        n_runs
          (state_after only_stars (every minute) strict_job
             interrupt_second_run 1 initial_state)) /\
     (interrupted_in_run (every minute) strict_job interrupt_second_run
        (state_after only_stars (every minute) strict_job
           interrupt_second_run 1 initial_state) ->
      n_runs s' =
        S (n_runs
             (state_after only_stars (every minute) strict_job
                interrupt_second_run 1 initial_state)))).
Proof.
  split.
  - apply (interrupt_exits_with_status_0 only_stars (every minute) strict_job
             interrupt_second_sleep 1 3 initial_state
             (state_after only_stars (every minute) strict_job
                interrupt_second_sleep 1 initial_state)).
    + vm_compute; reflexivity.
    + left. split; [split|]; vm_compute; congruence.
  - apply (interrupt_exits_with_status_0 only_stars (every minute) strict_job
             interrupt_second_run 1 3 initial_state
             (state_after only_stars (every minute) strict_job
                interrupt_second_run 1 initial_state)).
    + vm_compute; reflexivity.
    + right. eexists. split; [vm_compute; reflexivity | reflexivity].
Defined.

(** C6 as it is stated fails: the first sleep of the strict job elapses
    and the operator's interrupt arrives before the command is launched,
    outside both [try] statements.  [KeyboardInterrupt] leaves [main]: the
    exit status is 130, not 0, and "Exiting..." is not logged. *)
Lemma interrupt_before_launch_is_not_clean :
  sigint_before_launch interrupt_before_launch 0 = true /\
  main only_stars (every minute) strict_job interrupt_before_launch 3
    initial_state =
  (Raised KeyboardInterrupt,
   asleep (every minute) strict_job interrupt_before_launch
     (started strict_job interrupt_before_launch initial_state)) /\
  exit_status
    (fst (main only_stars (every minute) strict_job interrupt_before_launch 3
            initial_state)) = Some 130 /\
  exit_status
    (fst (main only_stars (every minute) strict_job interrupt_before_launch 3
            initial_state)) <> Some 0 /\
  trace (snd (main only_stars (every minute) strict_job
                interrupt_before_launch 3 initial_state)) =
  [ Log INFO (RunningJobWithCron "* * * * *");
    Log INFO (CommandLine ["backup"%string]);
    Log INFO (NextRunAt minute minute);
    Sleep minute ].
Proof.
  split; [reflexivity|].
  split; [vm_compute; reflexivity|].
  split; [vm_compute; reflexivity|].
  split; [vm_compute; discriminate | vm_compute; reflexivity].
Qed.

(** ** The fatal exit that is not

    C1 asks that, with [--exit-on-error] and nothing ignored, a command
    that exits 2 ends the program with status 2.  Line 92 does raise
    [typer.Exit(2)], but from inside the [try] whose last clause is
    [except Exception]: the exception is logged as an execution error and
    the loop goes on. *)

Lemma strict_job_step (rc : Z) (s : State) :
  0 <= iter_cur s ->
  exists s',
    body (every minute) strict_job (still_world (Completed rc)) s
    = (Normal tt, s') /\ 0 <= iter_cur s'.
Proof.
  intros Hc.
  pose proof (every_positive minute (cron strict_job) (iter_cur s) eq_refl Hc)
    as Hn.
  assert (Hw : wait_phase (every minute) strict_job
                 (still_world (Completed rc)) s
               = (Normal true,
                  asleep (every minute) strict_job
                    (still_world (Completed rc)) s)).
  { apply wait_phase_elapsed; [|reflexivity..].
    split; [apply Z.leb_gt; exact Hn | cbn [clock still_world]; lia]. }
  destruct (execute_phase_not_interrupted strict_job
              (still_world (Completed rc))
              (asleep (every minute) strict_job (still_world (Completed rc)) s))
    as (s' & He & (_ & _ & _ & _ & Hcur)); [discriminate|].
  exists s'. rewrite (body_due _ _ _ _ _ Hw). split; [exact He|].
  rewrite Hcur. apply Z.lt_le_incl. exact Hn.
Qed.

(** C1, on the code: the strict job whose command always exits 2 is still
    looping after any number of iterations, so the program has no exit
    status; the first iteration logs the [Exit(2)] it has caught. *)
Theorem exit_on_error_is_swallowed :
  (forall N,
     exit_status
       (fst (main only_stars (every minute) strict_job
               (still_world (Completed 2)) N initial_state)) = None) /\
  trace (snd (main only_stars (every minute) strict_job
                (still_world (Completed 2)) 1 initial_state)) =
  [ Log INFO (RunningJobWithCron "* * * * *");
    Log INFO (CommandLine ["backup"%string]);
    Log INFO (NextRunAt minute minute);
    Sleep minute;
    Log INFO RunningJob;
    Log DEBUG (RunningCommand ["backup"%string]);
    Run ["backup"%string] DEVNULL sys_stdout sys_stderr;
    Log ERROR (CommandExited 2);
    Log ERROR (ErrorRunningCommand (Exit 2)) ].
Proof.
  split; [|vm_compute; reflexivity].
  intros N. rewrite main_started by reflexivity.
  destruct (run_loop_invariant (every minute) strict_job
              (still_world (Completed 2)) (fun s => 0 <= iter_cur s)
              (strict_job_step 2) N
              (started strict_job (still_world (Completed 2)) initial_state))
    as [Hf _]; [cbn; lia|].
  rewrite Hf. reflexivity.
Qed.

(** ** The streams at work *)

(** Two iterations of a job run with [--stderr-to-stdout]. *)
Lemma stderr_goes_to_sys_stdout_witness :
  extends (stderr_on_sys_stdout merging_job) initial_state
    (snd (main only_stars (every minute) merging_job
            (still_world (Completed 0)) 2 initial_state)).
Proof.
  apply (stderr_goes_to_sys_stdout only_stars (every minute) merging_job
           (still_world (Completed 0)) 2 initial_state).
  reflexivity.
Defined.

(** C8 as it is stated fails: with [--no-output] as well, the command is
    launched with its standard output on the null device and its standard
    error on [sys.stdout], so the two do not go to the same place. *)
Lemma stderr_not_merged_when_muted :
  stderr_to_stdout muted_merging_job = true /\
  In (Run ["backup"%string] DEVNULL DEVNULL sys_stdout)
     (trace (snd (main only_stars (every minute) muted_merging_job
                    (still_world (Completed 0)) 1 initial_state))) /\
  ~ extends merged_streams initial_state
      (snd (main only_stars (every minute) muted_merging_job
              (still_world (Completed 0)) 1 initial_state)).
Proof.
  split; [reflexivity|]. split; [vm_compute; tauto|].
  intros (l & E & H). vm_compute in E. subst l.
  rewrite Forall_forall in H.
  specialize (H (Run ["backup"%string] DEVNULL DEVNULL sys_stdout)).
  cbn in H. assert (Hd : sys_stdout = DEVNULL) by (apply H; tauto).
  discriminate Hd.
Qed.

(** A run without [--enable-stdin]: the command reads the null device. *)
Example run_without_stdin :
  In (Run ["backup"%string] DEVNULL sys_stdout sys_stderr)
     (trace (snd (main only_stars (every minute) lenient_job
                    (still_world (Completed 0)) 1 initial_state))).
Proof. vm_compute. tauto. Qed.

(** ** The requery loop at work *)


Example two_requeries_after_the_jump :
  trace (snd (run_loop (every 5) tick_job jumped_world 2
                (started tick_job jumped_world initial_state))) =
  [ Log INFO (RunningJobWithCron "* * * * * *");
    Log INFO (CommandLine ["backup"%string]);
    Log WARNING (NextRunInPast 5);
    Log WARNING (NextRunInPast 10) ].
Proof. vm_compute. reflexivity. Qed.




(** ** More of the loop at work *)

(** The strict job in the world where the process is held up during the
    first iteration. *)
Lemma late_wakeup_is_fatal_witness :
  run_loop (every minute) strict_job late_world 3
    (started strict_job late_world initial_state) =
    (Raised (ValueError "sleep length must be non-negative"),
     woke_late (every minute) strict_job late_world
       (started strict_job late_world initial_state)) /\
  exit_status
    (fst (run_loop (every minute) strict_job late_world 3
            (started strict_job late_world initial_state))) = Some 1 /\
  n_sleeps (woke_late (every minute) strict_job late_world
              (started strict_job late_world initial_state)) =
    n_sleeps (started strict_job late_world initial_state) /\
  n_runs (woke_late (every minute) strict_job late_world
            (started strict_job late_world initial_state)) =
    n_runs (started strict_job late_world initial_state).
Proof.
  apply (late_wakeup_is_fatal (every minute) strict_job late_world 2
           (started strict_job late_world initial_state)).
  split; vm_compute; reflexivity.
Defined.

(** The boundary: the every-minute schedule, started at 0, when the clock
    shows exactly one minute. *)
Lemma past_run_is_skipped_witness :
  body (every minute) lenient_job on_the_minute initial_state =
    (Normal tt, requeried (every minute) lenient_job initial_state) /\
  trace (requeried (every minute) lenient_job initial_state) =
    trace initial_state ++
    [Log WARNING
       (NextRunInPast
          (every minute (cron lenient_job) (iter_cur initial_state)))] /\
  iter_cur (requeried (every minute) lenient_job initial_state) =
    every minute (cron lenient_job) (iter_cur initial_state) /\
  n_sleeps (requeried (every minute) lenient_job initial_state) =
    n_sleeps initial_state /\
  n_runs (requeried (every minute) lenient_job initial_state) =
    n_runs initial_state.
Proof.
  apply (past_run_is_skipped (every minute) lenient_job on_the_minute
           initial_state).
  vm_compute. discriminate.
Defined.

(** Four iterations of the lenient job. *)
Lemma one_query_per_iteration_witness :
  n_queries (snd (main only_stars (every minute) lenient_job
                    (still_world (Completed 0)) 4 initial_state)) =
    (n_queries initial_state + 4)%nat /\
  iter_cur (snd (main only_stars (every minute) lenient_job
                   (still_world (Completed 0)) 4 initial_state)) =
    Nat.iter 4 (every minute (cron lenient_job))
      (iter_cur (started lenient_job (still_world (Completed 0))
                   initial_state)).
Proof.
  apply (one_query_per_iteration only_stars (every minute) lenient_job
           (still_world (Completed 0)) 4 initial_state).
  vm_compute. reflexivity.
Defined.

(** The strict job whose second sleep the operator interrupts ends with
    [typer.Exit(0)]. *)
Lemma only_exit_zero_escapes_witness :
  fst (main only_stars (every minute) strict_job interrupt_second_sleep 5
         initial_state) = Raised (Exit 0) /\
  0 = 0.
Proof.
  split; [vm_compute; reflexivity|].
  apply (only_exit_zero_escapes only_stars (every minute) strict_job
           interrupt_second_sleep 5 initial_state 0).
  vm_compute. reflexivity.
Defined.

(** The strict job's command exits 3. *)
Lemma return_code_is_logged_witness :
  exists l : list event,
    trace (snd (execute_phase strict_job (still_world (Completed 3))
                  initial_state)) = trace initial_state ++ l /\
    In (Log (if 3 =? 0 then INFO else ERROR) (CommandExited 3)) l.
Proof.
  apply (return_code_is_logged strict_job (still_world (Completed 3))
           initial_state 3).
  reflexivity.
Defined.

(** ** Options that need each other *)

Lemma body_with_ignored_codes (cron_next : string -> Z -> Z) (a : Args)
    (env : Env) (codes : list Z) (s : State) :
  exit_on_error a = false ->
  body cron_next (with_ignored_codes codes a) env s = body cron_next a env s.
Proof.
  intros Heoe. unfold body, bind.
  change (wait_phase cron_next (with_ignored_codes codes a) env s)
    with (wait_phase cron_next a env s).
  destruct (wait_phase cron_next a env s) as [[[|]|e|] s1]; try reflexivity.
  unfold execute_phase, bind, try_except, subprocess_run, logger.
  cbn [exit_on_error ignored_codes command with_ignored_codes].
  rewrite Heoe. reflexivity.
Qed.

(** X10: [--ignored-codes] has no effect without [--exit-on-error]: whatever
    list is given, the run is the same, outcome, state and trace. *)
Theorem ignored_codes_need_exit_on_error (cron_valid : string -> bool)
    (cron_next : string -> Z -> Z) (a : Args) (env : Env) (codes : list Z)
    (fuel : nat) (s : State) :
  exit_on_error a = false ->
  main cron_valid cron_next (with_ignored_codes codes a) env fuel s =
  main cron_valid cron_next a env fuel s.
Proof.
  intros Heoe. unfold main, bind.
  change (startup cron_valid (with_ignored_codes codes a) env s)
    with (startup cron_valid a env s).
  destruct (startup cron_valid a env s) as [[[]|e|] s1]; try reflexivity.
  revert s1. induction fuel as [|n IH]; intros s1; [reflexivity|].
  rewrite !run_loop_S.
  rewrite (body_with_ignored_codes cron_next a env codes s1 Heoe).
  destruct (body cron_next a env s1) as [[[]|e|] s2]; try reflexivity.
  apply IH.
Qed.

(** The lenient job, told to ignore 1 and 2, with a command that exits 1. *)
Lemma ignored_codes_need_exit_on_error_witness :
  main only_stars (every minute) (with_ignored_codes [1; 2] lenient_job)
    (still_world (Completed 1)) 3 initial_state =
  main only_stars (every minute) lenient_job
    (still_world (Completed 1)) 3 initial_state.
Proof.
  apply (ignored_codes_need_exit_on_error only_stars (every minute)
           lenient_job (still_world (Completed 1)) [1; 2] 3 initial_state).
  reflexivity.
Defined.

(** The strict job whose second sleep the operator interrupts. *)
Lemma clean_exit_says_exiting_witness :
  exists l,
    trace (snd (main only_stars (every minute) strict_job
                  interrupt_second_sleep 5 initial_state)) =
    trace initial_state ++ l ++ [Log INFO Exiting].
Proof.
  apply (clean_exit_says_exiting only_stars (every minute) strict_job
           interrupt_second_sleep 5 initial_state).
  vm_compute. reflexivity.
Defined.
